(** * nt_data: connectors and storage of the NinjaTrader market-data client

    A shallow embedding of [nt_data.connectors.ninjatrader_client] and
    [nt_data.services.storage_service], and the properties of the
    specification that concern them.

    Conventions of the embedding.
    - A [datetime] is an integer count of microseconds, a [timedelta] an
      integer number of microseconds; Python integers are [Z].  The range
      limits of the library types are not part of the model.
    - A Python [float] is an exact rational [Q]; [round(x, 2)] rounds to the
      nearest hundredth, ties to even.
    - A Python [str] is a [string]; character codes are read as code points
      below 256.
    - A call either returns or raises: [outcome].  A loop that may run
      forever takes a [fuel] argument and answers [None] when it runs out.
    - The clock of the file handshake moves when the program sleeps, and
      the external agent acts on the file system during a sleep.
    - Logging has no effect on any value and is left out. *)

From Stdlib Require Import ZArith QArith Qround Lqa Lia Bool Ascii.
From Stdlib Require String.
From stdpp Require Import gmap strings list.

Local Open Scope Z_scope.

(** ** Exceptions and outcomes *)

Inductive exn : Type :=
  | ConnectionError
  | TimeoutError
  | NotImplementedError
  | ValueError
  | IndexError
  | FileNotFoundError.

Inductive outcome (A : Type) : Type :=
  | Return (a : A)
  | Raise (e : exn).

Arguments Return {A} a.
Arguments Raise {A} e.

Definition bind {A B} (o : outcome A) (k : A -> outcome B) : outcome B :=
  match o with
  | Return a => k a
  | Raise e => Raise e
  end.

Notation "x <-! o ;; k" := (bind o (fun x => k))
  (at level 100, o at next level, right associativity).

(** An optional library result [None] raises the given exception. *)
Definition or_raise {A} (e : exn) (o : option A) : outcome A :=
  match o with
  | Some a => Return a
  | None => Raise e
  end.

(** ** Data model ([models/bar.py], [models/tick.py]) *)

Definition datetime := Z.
Definition timedelta := Z.

Record BarData : Type := mkBar {
  bar_time : datetime;
  bar_open : Q;
  bar_high : Q;
  bar_low : Q;
  bar_close : Q;
  bar_volume : Z;
  bar_instrument : string;
  bar_timeframe : string
}.

Record TickData : Type := mkTick {
  tick_time : datetime;
  tick_bid : option Q;
  tick_ask : option Q;
  tick_last : option Q;
  tick_volume : option Z;
  tick_instrument : string
}.

(** ** Strings *)

Module Str.

(** [s[-1]], where it exists. *)
Fixpoint last_char (s : string) : option ascii :=
  match s with
  | EmptyString => None
  | String c EmptyString => Some c
  | String _ r => last_char r
  end.

(** [s[:-1]]. *)
Fixpoint but_last (s : string) : string :=
  match s with
  | EmptyString => EmptyString
  | String _ EmptyString => EmptyString
  | String c r => String c (but_last r)
  end.

Definition is_empty (s : string) : bool :=
  match s with EmptyString => true | _ => false end.

(** Truth value of a string: non-empty. *)
Definition truthy (s : string) : bool := negb (is_empty s).



Fixpoint join (sep : string) (l : list string) : string :=
  match l with
  | [] => ""
  | [x] => x
  | x :: r => x +:+ sep +:+ join sep r
  end.

End Str.

(** ** [int(str)]

    Optional white space, an optional sign, decimal digits with single
    underscores between them, optional white space. *)

Module PyInt.

Definition is_space (c : ascii) : bool :=
  let n := nat_of_ascii c in
  ((Nat.leb 9 n && Nat.leb n 13) || (Nat.leb 28 n && Nat.leb n 32)
   || Nat.eqb n 133 || Nat.eqb n 160)%bool.

Definition digit (c : ascii) : option Z :=
  let n := nat_of_ascii c in
  if (Nat.leb 48 n && Nat.leb n 57)%bool then Some (Z.of_nat n - 48) else None.

Fixpoint all_space (s : string) : bool :=
  match s with
  | EmptyString => true
  | String c r => (is_space c && all_space r)%bool
  end.

(** [after_digit] tells whether the previous character was a digit. *)
Fixpoint digits (after_digit : bool) (acc : Z) (s : string) : option Z :=
  match s with
  | EmptyString => if after_digit then Some acc else None
  | String c r =>
      match digit c with
      | Some d => digits true (10 * acc + d) r
      | None =>
          if after_digit then
            if Ascii.eqb c "_" then digits false acc r
            else if (is_space c && all_space r)%bool then Some acc
            else None
          else None
      end
  end.

Definition signed (s : string) : option Z :=
  match s with
  | String "+" r => digits false 0 r
  | String "-" r => Z.opp <$> digits false 0 r
  | _ => digits false 0 s
  end.

Fixpoint lstrip (s : string) : string :=
  match s with
  | String c r => if is_space c then lstrip r else s
  | EmptyString => EmptyString
  end.

Definition int (s : string) : outcome Z :=
  or_raise ValueError (signed (lstrip s)).

End PyInt.

(** ** [_timeframe_to_timedelta] *)

Definition seconds (v : Z) : timedelta := v * 1000000.
Definition minutes (v : Z) : timedelta := v * 60000000.
Definition hours (v : Z) : timedelta := v * 3600000000.

Definition _timeframe_to_timedelta (timeframe : string) : outcome timedelta :=
  unit <-! or_raise IndexError (Str.last_char timeframe) ;;
  value <-! (if Str.truthy (Str.but_last timeframe)
             then PyInt.int (Str.but_last timeframe)
             else Return 1) ;;
  if Ascii.eqb unit "m" then Return (minutes value)
  else if Ascii.eqb unit "h" then Return (hours value)
  else if Ascii.eqb unit "s" then Return (seconds value)
  else Return (minutes 1).

(** ** Numbers: [round(x, 2)], [random.uniform] *)

(** Nearest integer, ties to the even one. *)
Definition round_half_even (q : Q) : Z :=
  let n := Qfloor q in
  match Qcompare (q - inject_Z n) (1 # 2) with
  | Lt => n
  | Gt => n + 1
  | Eq => if Z.even n then n else n + 1
  end.

Definition round2 (q : Q) : Q := Qmake (round_half_even (q * 100)) 100.

(** [random.uniform(a, b)] is [a + (b - a) * random()]; [r] is the value of
    that [random()] call. *)
Definition uniform (a b r : Q) : Q := (a + (b - a) * r)%Q.

Definition unit_interval (r : Q) : Prop := (0 <= r /\ r <= 1)%Q.

Definition Qmax0 (q : Q) : Q := if Qle_bool 0 q then q else 0%Q.

(** ** [SimulatedNinjaTraderClient] *)

Module Simulated.

(** The random values drawn in one iteration of the historical loop. *)
Record BarDraw : Type := mkBarDraw {
  u_high : Q;      (* random() behind uniform(0, 5) for high *)
  u_low : Q;       (* random() behind uniform(0, 5) for low *)
  u_close : Q;     (* random() behind uniform(low, high) *)
  n_volume : Z     (* randint(10, 1000) *)
}.

Definition bar_draw_ok (d : BarDraw) : Prop :=
  unit_interval (u_high d) /\ unit_interval (u_low d)
  /\ unit_interval (u_close d) /\ 10 <= n_volume d <= 1000.

(** The random values drawn in one iteration of a tick stream. *)
Record TickDraw : Type := mkTickDraw {
  u_change : Q;    (* random() behind uniform(-1.5, 1.5) *)
  u_spread : Q;    (* random() behind uniform(0.25, 1.25) *)
  u_last : Q;      (* random() behind uniform(0, ask - bid) *)
  n_size : Z;      (* randint(1, 10) *)
  t_now : datetime (* datetime.utcnow() *)
}.

(** Where a stream thread stands: started and not yet seeded, at the head
    of its [while] loop, or returned. *)
Inductive stream_pc : Type :=
  | Started
  | AtLoopHead (last_price : Q)
  | Finished.

(** A thread running [_stream]; [th_stop] names its [stop_event] in the
    store of events, [th_delivered] lists the ticks handed to [on_tick]. *)
Record StreamThread : Type := mkThread {
  th_instrument : string;
  th_stop : nat;
  th_pc : stream_pc;
  th_delivered : list TickData
}.

(** The connector.  [events] is the store of the per-subscription
    [threading.Event] objects and [threads] the store of started threads;
    an entry of [_subscriptions] names one of each. *)
Record Client : Type := mkClient {
  _connected : bool;
  _stop_event : bool;
  events : list bool;
  threads : list StreamThread;
  _subscriptions : list (string * nat * nat)
}.

Definition new_client : Client :=
  {| _connected := false; _stop_event := false; events := [];
     threads := []; _subscriptions := [] |}.

Definition is_connected (c : Client) : bool := _connected c.

Definition supports_realtime (c : Client) : bool := true.

Definition _set_connected (value : bool) (c : Client) : Client :=
  {| _connected := value; _stop_event := _stop_event c; events := events c;
     threads := threads c; _subscriptions := _subscriptions c |}.

Definition connect (c : Client) : Client := _set_connected true c.

Definition set_event (ev : nat) (c : Client) : Client :=
  {| _connected := _connected c; _stop_event := _stop_event c;
     events := <[ev := true]> (events c);
     threads := threads c; _subscriptions := _subscriptions c |}.

(** [thread.join(timeout=1)] changes nothing in the connector. *)
Definition disconnect (c : Client) : Client :=
  let c1 :=
    {| _connected := _connected c; _stop_event := true; events := events c;
       threads := threads c; _subscriptions := _subscriptions c |} in
  let c2 := foldl (fun acc sub => set_event (snd (fst sub)) acc) c1
                  (_subscriptions c1) in
  let c3 :=
    {| _connected := _connected c2; _stop_event := _stop_event c2;
       events := events c2; threads := threads c2; _subscriptions := [] |} in
  _set_connected false c3.

(** What [subscribe_market_data] returns: the closure [cancel], which holds
    the subscription's [stop_event] and [thread]. *)
Record cancel_handle : Type := mkCancel { c_event : nat; c_thread : nat }.

Definition subscribe_market_data (instrument : string) (c : Client)
  : outcome cancel_handle * Client :=
  if negb (is_connected c) then (Raise ConnectionError, c)
  else
    let ev := length (events c) in
    let tid := length (threads c) in
    let thread :=
      {| th_instrument := instrument; th_stop := ev; th_pc := Started;
         th_delivered := [] |} in
    (Return {| c_event := ev; c_thread := tid |},
     {| _connected := _connected c; _stop_event := _stop_event c;
        events := events c ++ [false];
        threads := threads c ++ [thread];
        _subscriptions := _subscriptions c ++ [(instrument, ev, tid)] |}).

Definition cancel (h : cancel_handle) (c : Client) : Client :=
  let c1 := set_event (c_event h) c in
  {| _connected := _connected c1; _stop_event := _stop_event c1;
     events := events c1; threads := threads c1;
     _subscriptions :=
       filter (fun sub => snd (fst sub) <> c_event h) (_subscriptions c1) |}.

Definition is_set (ev : nat) (c : Client) : bool :=
  default false (events c !! ev).

(** One tick of [_stream], from the last price and the draws. *)
Definition make_tick (instrument : string) (last_price : Q) (d : TickDraw)
  : TickData * Q :=
  let change := uniform (-(3#2)) (3#2) (u_change d) in
  let bid := Qmax0 (last_price + change - (1#2)) in
  let ask := (bid + uniform (1#4) (5#4) (u_spread d))%Q in
  let last_price' := (bid + uniform 0 (ask - bid) (u_last d))%Q in
  ({| tick_time := t_now d;
      tick_bid := Some (round2 bid);
      tick_ask := Some (round2 ask);
      tick_last := Some (round2 last_price');
      tick_volume := Some (n_size d);
      tick_instrument := instrument |}, last_price').

(** One step of a thread running [_stream]: the seed draw, or one test of
    the loop condition followed, when it holds, by one loop body. *)
Definition stream_step (seed : Q) (d : TickDraw) (c : Client)
  (th : StreamThread) : StreamThread :=
  match th_pc th with
  | Started =>
      {| th_instrument := th_instrument th; th_stop := th_stop th;
         th_pc := AtLoopHead (uniform 1000 5000 seed);
         th_delivered := th_delivered th |}
  | AtLoopHead last_price =>
      if (is_set (th_stop th) c || _stop_event c)%bool then
        {| th_instrument := th_instrument th; th_stop := th_stop th;
           th_pc := Finished; th_delivered := th_delivered th |}
      else
        let '(tick, last_price') :=
          make_tick (th_instrument th) last_price d in
        {| th_instrument := th_instrument th; th_stop := th_stop th;
           th_pc := AtLoopHead last_price';
           th_delivered := th_delivered th ++ [tick] |}
  | Finished => th
  end.

Definition thread_step (tid : nat) (seed : Q) (d : TickDraw) (c : Client)
  : Client :=
  match threads c !! tid with
  | Some th =>
      {| _connected := _connected c; _stop_event := _stop_event c;
         events := events c;
         threads := <[tid := stream_step seed d c th]> (threads c);
         _subscriptions := _subscriptions c |}
  | None => c
  end.

(** What can happen to a connector: a call of its interface, or a step of
    one of its stream threads. *)
Inductive action : Type :=
  | Connect
  | Disconnect
  | Subscribe (instrument : string)
  | Cancel (h : cancel_handle)
  | ThreadStep (tid : nat) (seed : Q) (d : TickDraw).

Definition step (c : Client) (a : action) : Client :=
  match a with
  | Connect => connect c
  | Disconnect => disconnect c
  | Subscribe instrument => snd (subscribe_market_data instrument c)
  | Cancel h => cancel h c
  | ThreadStep tid seed d => thread_step tid seed d c
  end.

Definition run (c : Client) (trace : list action) : Client :=
  foldl step c trace.

(** The [while current < end] loop of [request_historical_data];
    [k] counts the iterations done. *)
Fixpoint history_loop (fuel : nat) (draws : nat -> BarDraw)
  (instrument timeframe : string) (delta : timedelta) (end_ : datetime)
  (k : nat) (current : datetime) (price : Q) (bars : list BarData)
  : option (list BarData) :=
  match fuel with
  | O => None
  | S fuel' =>
      if current <? end_ then
        let d := draws k in
        let high := (price + uniform 0 5 (u_high d))%Q in
        let low := (price - uniform 0 5 (u_low d))%Q in
        let close := uniform low high (u_close d) in
        let volume := n_volume d in
        let bar :=
          {| bar_time := current;
             bar_open := round2 price;
             bar_high := round2 high;
             bar_low := round2 low;
             bar_close := round2 close;
             bar_volume := volume;
             bar_instrument := instrument;
             bar_timeframe := timeframe |} in
        history_loop fuel' draws instrument timeframe delta end_
                     (S k) (current + delta) close (bars ++ [bar])
      else Some bars
  end.

(** [seed] is the [random()] behind the first price. *)
Definition request_historical_data (fuel : nat) (seed : Q)
  (draws : nat -> BarDraw) (c : Client)
  (instrument timeframe : string) (start end_ : datetime)
  : option (outcome (list BarData)) :=
  if negb (is_connected c) then Some (Raise ConnectionError)
  else
    match _timeframe_to_timedelta timeframe with
    | Raise e => Some (Raise e)
    | Return delta =>
        Return <$> history_loop fuel draws instrument timeframe delta end_
                                0 start (uniform 1000 5000 seed) []
    end.

End Simulated.

(** ** Library functions

    The functions of the Python library that the connectors and the storage
    backend call on text: the [csv] tokenizer, [float], and the conversions
    between [datetime] and text.  [None] stands for [ValueError]. *)

Class Library : Type := mkLibrary {
  csv_reader : string -> list (list string);
  float_of_string : string -> option Q;
  fromisoformat : string -> option datetime;
  strptime_ymd : string -> option datetime;
  isoformat : datetime -> string;
  date_isoformat : datetime -> string
}.

(** [int(x)] of a float: truncation toward zero. *)
Definition int_of_float (q : Q) : Z := Z.quot (Qnum q) (Zpos (Qden q)).

(** ** [csv.DictReader] *)

Module Csv.

(** [zip(fieldnames, row)], a short row padded with [restval = None]. *)
Fixpoint zip_pad (fieldnames row : list string)
  : list (string * option string) :=
  match fieldnames with
  | [] => []
  | key :: keys =>
      match row with
      | [] => (key, None) :: zip_pad keys []
      | v :: vs => (key, Some v) :: zip_pad keys vs
      end
  end.

(** [dict(pairs)]: a later pair replaces an earlier one with its key. *)
Definition dict_of (pairs : list (string * option string))
  : gmap string (option string) :=
  foldl (fun d kv => <[fst kv := snd kv]> d) ∅ pairs.

Definition is_blank (row : list string) : bool :=
  match row with [] => true | _ => false end.

(** The rows a [DictReader] yields over the tokenized lines: the first
    line gives the field names, blank lines are skipped.  The values of a
    row longer than the header go under the key [None], which no string
    key reads; they are left out. *)
Definition DictReader (lines : list (list string))
  : list (gmap string (option string)) :=
  match lines with
  | [] => []
  | fieldnames :: rest =>
      map (fun row => dict_of (zip_pad fieldnames row))
          (List.filter (fun row => negb (is_blank row)) rest)
  end.

(** [row.get(key)]: [None] when the key is missing or holds [None]. *)
Definition get (row : gmap string (option string)) (key : string)
  : option string :=
  mjoin (row !! key).

End Csv.

(** ** [KinetickEODClient] *)

Module KinetickEOD.

(** The file system and the clock.  [uuid_calls] counts the calls of
    [uuid4]. *)
Record World : Type := mkWorld {
  files : gmap string string;
  clock : Z;
  uuid_calls : nat
}.

(** What is outside the program: the values of [uuid4().hex], and the
    external agent, which changes the file system while the program
    sleeps ([agent t fs] is the file system at time [t], from [fs]). *)
Record Environment : Type := mkEnv {
  uuid4_hex : nat -> string;
  agent : Z -> gmap string string -> gmap string string
}.

Record Client : Type := mkClient {
  _connected : bool;
  _commands_dir : string;
  _export_dir : string;
  _export_timeout : Z;
  _poll_interval : Z
}.

Definition is_connected (c : Client) : bool := _connected c.

Definition supports_realtime (c : Client) : bool := false.

Definition _set_connected (value : bool) (c : Client) : Client :=
  {| _connected := value; _commands_dir := _commands_dir c;
     _export_dir := _export_dir c; _export_timeout := _export_timeout c;
     _poll_interval := _poll_interval c |}.

(** Directories are not modelled: [mkdir] changes nothing. *)
Definition connect (c : Client) : Client := _set_connected true c.

Definition disconnect (c : Client) : Client := _set_connected false c.

Definition subscribe_market_data (instrument : string) (c : Client)
  : outcome unit * Client :=
  (Raise NotImplementedError, c).

(** [dir / name]. *)
Definition path_join (dir name : string) : string := dir +:+ "/" +:+ name.

Definition exists_ (path : string) (w : World) : bool :=
  bool_decide (is_Some (files w !! path)).

Definition write_text (path text : string) (w : World) : World :=
  {| files := <[path := text]> (files w); clock := clock w;
     uuid_calls := uuid_calls w |}.

Definition unlink (path : string) (w : World) : World :=
  {| files := delete path (files w); clock := clock w;
     uuid_calls := uuid_calls w |}.

(** [time.sleep(d)]: the clock moves on by [d] and the agent acts. *)
Definition sleep (env : Environment) (d : Z) (w : World) : outcome World :=
  if d <? 0 then Raise ValueError
  else Return {| files := agent env (clock w + d) (files w);
                 clock := clock w + d;
                 uuid_calls := uuid_calls w |}.

Section Parse.

Context {L : Library}.

(** [a or b] on optional strings. *)
Definition or_str (a b : option string) : option string :=
  match a with
  | Some s => if Str.truthy s then a else b
  | None => b
  end.

Definition parse_time (date_value : string) : outcome datetime :=
  match fromisoformat date_value with
  | Some t => Return t
  | None => or_raise ValueError (strptime_ymd date_value)
  end.

(** [float(row.get(key, 0.0) or 0.0)]. *)
Definition float_field (row : gmap string (option string)) (key : string)
  : outcome Q :=
  match Csv.get row key with
  | Some s =>
      if Str.truthy s then or_raise ValueError (float_of_string s)
      else Return 0%Q
  | None => Return 0%Q
  end.

(** The [for row in reader] loop of [_parse_export]. *)
Fixpoint parse_rows (rows : list (gmap string (option string)))
  (instrument : string) (bars : list BarData) : outcome (list BarData) :=
  match rows with
  | [] => Return bars
  | row :: rest =>
      match or_str (Csv.get row "Date") (Csv.get row "date") with
      | None => parse_rows rest instrument bars
      | Some date_value =>
          if negb (Str.truthy date_value)
          then parse_rows rest instrument bars
          else
            time_value <-! parse_time date_value ;;
            open <-! float_field row "Open" ;;
            high <-! float_field row "High" ;;
            low <-! float_field row "Low" ;;
            close <-! float_field row "Close" ;;
            volume <-! float_field row "Volume" ;;
            parse_rows rest instrument
              (bars ++ [ {| bar_time := time_value;
                            bar_open := open;
                            bar_high := high;
                            bar_low := low;
                            bar_close := close;
                            bar_volume := int_of_float volume;
                            bar_instrument := instrument;
                            bar_timeframe := "1D" |} ])
      end
  end.

(** [_parse_export] on the tokenized lines of the file. *)
Definition parse_lines (lines : list (list string)) (instrument : string)
  : outcome (list BarData) :=
  parse_rows (Csv.DictReader lines) instrument [].

Definition _parse_export (export_path instrument : string) (w : World)
  : outcome (list BarData) :=
  match files w !! export_path with
  | None => Raise FileNotFoundError
  | Some text => parse_lines (csv_reader text) instrument
  end.

(** The [while] loop of [_wait_for_export]. *)
Fixpoint wait_loop (fuel : nat) (env : Environment) (c : Client)
  (start_time : Z) (export_path instrument : string) (w : World)
  : option (outcome (list BarData) * World) :=
  match fuel with
  | O => None
  | S fuel' =>
      if clock w - start_time <? _export_timeout c then
        if exists_ export_path w then
          match _parse_export export_path instrument w with
          | Return bars => Some (Return bars, unlink export_path w)
          | Raise e => Some (Raise e, w)
          end
        else
          match sleep env (_poll_interval c) w with
          | Return w' =>
              wait_loop fuel' env c start_time export_path instrument w'
          | Raise e => Some (Raise e, w)
          end
      else Some (Raise TimeoutError, w)
  end.

Definition _wait_for_export (fuel : nat) (env : Environment) (c : Client)
  (export_path instrument : string) (w : World)
  : option (outcome (list BarData) * World) :=
  wait_loop fuel env c (clock w) export_path instrument w.

Definition command_path_of (c : Client) (command_id : string) : string :=
  path_join (_commands_dir c) ("cmd_" +:+ command_id +:+ ".txt").

Definition export_path_of (c : Client) (command_id : string) : string :=
  path_join (_export_dir c) (command_id +:+ ".csv").

(** The first half of [request_historical_data]: a fresh id, and the
    command file written.  Gives the two paths and the world after. *)
Definition write_command (env : Environment) (c : Client)
  (instrument : string) (start end_ : datetime) (w : World)
  : string * string * World :=
  let command_id := uuid4_hex env (uuid_calls w) in
  let w0 := {| files := files w; clock := clock w;
               uuid_calls := S (uuid_calls w) |} in
  let command_path := command_path_of c command_id in
  let export_path := export_path_of c command_id in
  let payload :=
    Str.join ";" ["DOWNLOAD"; instrument; date_isoformat start;
                  date_isoformat end_; export_path] in
  (command_path, export_path, write_text command_path payload w0).

Definition request_historical_data (fuel : nat) (env : Environment)
  (c : Client) (instrument timeframe : string) (start end_ : datetime)
  (w : World) : option (outcome (list BarData) * World) :=
  if negb (is_connected c) then Some (Raise ConnectionError, w)
  else
    let '(command_path, export_path, w1) :=
      write_command env c instrument start end_ w in
    match _wait_for_export fuel env c export_path instrument w1 with
    | None => None
    | Some (result, w2) =>
        (* finally *)
        let w3 := if exists_ command_path w2
                  then unlink command_path w2 else w2 in
        Some (result, w3)
    end.

End Parse.

End KinetickEOD.

(** ** [SQLiteStorageBackend] *)

Module Storage.

(** A row of table [ticks] and a row of table [bars]; time is TEXT. *)
Record TickRow : Type := mkTickRow {
  tr_instrument : string;
  tr_time : string;
  tr_bid : option Q;
  tr_ask : option Q;
  tr_last : option Q;
  tr_volume : option Z
}.

Record BarRow : Type := mkBarRow {
  br_instrument : string;
  br_timeframe : string;
  br_time : string;
  br_open : Q;
  br_high : Q;
  br_low : Q;
  br_close : Q;
  br_volume : Z
}.

(** The database: both tables, rows in the order of their [id]. *)
Record Database : Type := mkDb {
  ticks : list TickRow;
  bars : list BarRow
}.

(** [_initialize] on a new file. *)
Definition empty_db : Database := {| ticks := []; bars := [] |}.

(** One [WHERE] clause with its parameter. *)
Inductive clause : Type :=
  | InstrumentEq (p : string)   (* instrument = ? *)
  | TimeframeEq (p : string)    (* timeframe = ? *)
  | TimeGe (p : string)         (* time >= ? *)
  | TimeLe (p : string).        (* time <= ? *)

(** [SELECT ... WHERE clauses ORDER BY time [LIMIT ?]]. *)
Record query : Type := mkQuery {
  q_clauses : list clause;
  q_limit : option Z
}.

Section Select.

Context {Row : Type}.
Variable instrument_of : Row -> string.
Variable timeframe_of : Row -> option string.
Variable time_of : Row -> string.

Definition holds (r : Row) (cl : clause) : bool :=
  match cl with
  | InstrumentEq p => String.eqb (instrument_of r) p
  | TimeframeEq p =>
      match timeframe_of r with
      | Some tf => String.eqb tf p
      | None => false
      end
  | TimeGe p => String.leb p (time_of r)
  | TimeLe p => String.leb (time_of r) p
  end.

Fixpoint insert_by_time (r : Row) (sorted : list Row) : list Row :=
  match sorted with
  | [] => [r]
  | r' :: rest =>
      if String.leb (time_of r) (time_of r') then r :: sorted
      else r' :: insert_by_time r rest
  end.

(** [ORDER BY time]; rows with equal time stay in [id] order. *)
Definition order_by_time (rows : list Row) : list Row :=
  foldr insert_by_time [] rows.

(** [LIMIT n]: a negative [n] is no bound. *)
Definition apply_limit (lim : option Z) (rows : list Row) : list Row :=
  match lim with
  | None => rows
  | Some n => if n <? 0 then rows else take (Z.to_nat n) rows
  end.

Definition select (q : query) (table : list Row) : list Row :=
  apply_limit (q_limit q)
    (order_by_time
       (List.filter (fun r => forallb (holds r) (q_clauses q)) table)).

End Select.

Definition select_ticks : query -> list TickRow -> list TickRow :=
  select tr_instrument (fun _ => None) tr_time.

Definition select_bars : query -> list BarRow -> list BarRow :=
  select br_instrument (fun r => Some (br_timeframe r)) br_time.

(** [xs = [f(x) for x in rows]] where [f] may raise. *)
Fixpoint map_outcome {A B} (f : A -> outcome B) (l : list A)
  : outcome (list B) :=
  match l with
  | [] => Return []
  | x :: r =>
      y <-! f x ;;
      ys <-! map_outcome f r ;;
      Return (y :: ys)
  end.

Section Backend.

Context {L : Library}.

Definition tick_to_row (tick : TickData) : TickRow :=
  {| tr_instrument := tick_instrument tick;
     tr_time := isoformat (tick_time tick);
     tr_bid := tick_bid tick;
     tr_ask := tick_ask tick;
     tr_last := tick_last tick;
     tr_volume := tick_volume tick |}.

Definition bar_to_row (bar : BarData) : BarRow :=
  {| br_instrument := bar_instrument bar;
     br_timeframe := bar_timeframe bar;
     br_time := isoformat (bar_time bar);
     br_open := bar_open bar;
     br_high := bar_high bar;
     br_low := bar_low bar;
     br_close := bar_close bar;
     br_volume := bar_volume bar |}.

Definition save_ticks (ticks_ : list TickData) (db : Database)
  : Z * Database :=
  match ticks_ with
  | [] => (0, db)
  | _ =>
      let rows := map tick_to_row ticks_ in
      (Z.of_nat (length rows),
       {| ticks := ticks db ++ rows; bars := bars db |})
  end.

Definition save_bars (bars_ : list BarData) (db : Database)
  : Z * Database :=
  match bars_ with
  | [] => (0, db)
  | _ =>
      let rows := map bar_to_row bars_ in
      (Z.of_nat (length rows),
       {| ticks := ticks db; bars := bars db ++ rows |})
  end.

Definition _row_to_tick (row : TickRow) : outcome TickData :=
  time <-! or_raise ValueError (fromisoformat (tr_time row)) ;;
  Return {| tick_time := time;
            tick_bid := tr_bid row;
            tick_ask := tr_ask row;
            tick_last := tr_last row;
            tick_volume := tr_volume row;
            tick_instrument := tr_instrument row |}.

Definition _row_to_bar (row : BarRow) : outcome BarData :=
  time <-! or_raise ValueError (fromisoformat (br_time row)) ;;
  Return {| bar_time := time;
            bar_open := br_open row;
            bar_high := br_high row;
            bar_low := br_low row;
            bar_close := br_close row;
            bar_volume := br_volume row;
            bar_instrument := br_instrument row;
            bar_timeframe := br_timeframe row |}.

(** [if x:] on an optional string: present and non-empty. *)
Definition truthy_str (x : option string) : option string :=
  match x with
  | Some s => if Str.truthy s then Some s else None
  | None => None
  end.

(** [if limit:] on an optional integer: present and non-zero. *)
Definition truthy_int (x : option Z) : option Z :=
  match x with
  | Some n => if n =? 0 then None else Some n
  | None => None
  end.

(** A clause when its argument is truthy. *)
Definition clause_if {A} (x : option A) (mk : A -> clause) : list clause :=
  match x with
  | Some a => [mk a]
  | None => []
  end.

Definition fetch_ticks (instrument : option string)
  (start end_ : option datetime) (limit : option Z) (db : Database)
  : outcome (list TickData) :=
  let clauses :=
    clause_if (truthy_str instrument) InstrumentEq
    ++ clause_if start (fun t => TimeGe (isoformat t))
    ++ clause_if end_ (fun t => TimeLe (isoformat t)) in
  let q := {| q_clauses := clauses; q_limit := truthy_int limit |} in
  map_outcome _row_to_tick (select_ticks q (ticks db)).

Definition fetch_bars (instrument timeframe : option string)
  (start end_ : option datetime) (limit : option Z) (db : Database)
  : outcome (list BarData) :=
  let clauses :=
    clause_if (truthy_str instrument) InstrumentEq
    ++ clause_if (truthy_str timeframe) TimeframeEq
    ++ clause_if start (fun t => TimeGe (isoformat t))
    ++ clause_if end_ (fun t => TimeLe (isoformat t)) in
  let q := {| q_clauses := clauses; q_limit := truthy_int limit |} in
  map_outcome _row_to_bar (select_bars q (bars db)).

End Backend.

End Storage.

(** ** A small instance of the library, to run the model on examples

    Comma-separated lines without quoting, unsigned decimal numbers, and
    the texts of two dates. *)

Module Sample.

Fixpoint split (sep : ascii) (s : string) : list string :=
  match s with
  | EmptyString => [""]
  | String c r =>
      if Ascii.eqb c sep then "" :: split sep r
      else
        match split sep r with
        | h :: t => String c h :: t
        | [] => [String c ""]
        end
  end.

Fixpoint drop_last_blank (l : list string) : list string :=
  match l with
  | [] => []
  | [x] => if Str.is_empty x then [] else [x]
  | x :: r => x :: drop_last_blank r
  end.

Definition csv (text : string) : list (list string) :=
  map (fun line => if Str.is_empty line then [] else split "," line)
      (drop_last_blank (split "010" text)).

Definition float (s : string) : option Q :=
  match split "." s with
  | [i] => inject_Z <$> PyInt.digits false 0 i
  | [i; f] =>
      match PyInt.digits false 0 i, PyInt.digits false 0 f with
      | Some a, Some b =>
          Some (inject_Z a
                + Qmake b (Pos.pow 10 (Pos.of_nat (String.length f))))%Q
      | _, _ => None
      end
  | _ => None
  end.

Definition day : Z := 86400000000.

Definition iso (t : datetime) : string :=
  if t =? 0 then "1970-01-01T00:00:00"
  else if t =? day then "1970-01-02T00:00:00"
  else "0001-01-01T00:00:00".

Definition from_iso (s : string) : option datetime :=
  if String.eqb s "1970-01-01T00:00:00" then Some 0
  else if String.eqb s "1970-01-02T00:00:00" then Some day
  else if String.eqb s "1970-01-01" then Some 0
  else if String.eqb s "1970-01-02" then Some day
  else None.

Definition ymd (s : string) : option datetime :=
  if String.eqb s "1970-01-01" then Some 0
  else if String.eqb s "1970-01-02" then Some day
  else None.

Definition date_iso (t : datetime) : string :=
  if t <? day then "1970-01-01" else "1970-01-02".

Definition library : Library :=
  {| csv_reader := csv;
     float_of_string := float;
     fromisoformat := from_iso;
     strptime_ymd := ymd;
     isoformat := iso;
     date_isoformat := date_iso |}.

Definition bar_draws (k : nat) : Simulated.BarDraw :=
  {| Simulated.u_high := 1 # 2; Simulated.u_low := 1 # 4;
     Simulated.u_close := 3 # 4; Simulated.n_volume := 100 |}.

Definition connected_simulator : Simulated.Client :=
  Simulated.connect Simulated.new_client.

Definition tick_draw : Simulated.TickDraw :=
  {| Simulated.u_change := 1 # 2; Simulated.u_spread := 1 # 2;
     Simulated.u_last := 1 # 2; Simulated.n_size := 3;
     Simulated.t_now := 0 |}.

(** Subscribe, then let the stream thread run three steps. *)
Definition stream_trace : list Simulated.action :=
  [Simulated.Subscribe "ES 12-25";
   Simulated.ThreadStep 0 (1 # 2) tick_draw;
   Simulated.ThreadStep 0 (1 # 2) tick_draw;
   Simulated.ThreadStep 0 (1 # 2) tick_draw].

Definition newline : string := String "010" "".

Definition client : KinetickEOD.Client :=
  KinetickEOD.connect
    {| KinetickEOD._connected := false;
       KinetickEOD._commands_dir := "data/commands";
       KinetickEOD._export_dir := "data/exports";
       KinetickEOD._export_timeout := 3;
       KinetickEOD._poll_interval := 1 |}.

Definition empty_world : KinetickEOD.World :=
  {| KinetickEOD.files := ∅; KinetickEOD.clock := 0;
     KinetickEOD.uuid_calls := 0 |}.



(** An agent that, from time 2 on, answers with one daily row. *)
Definition answering : KinetickEOD.Environment :=
  {| KinetickEOD.uuid4_hex := fun _ => "0af3";
     KinetickEOD.agent := fun t fs =>
       if 2 <=? t
       then <["data/exports/0af3.csv" :=
                "Date,Open,High,Low,Close,Volume" +:+ newline
                +:+ "1970-01-02,1,3,1,2,100" +:+ newline]> fs
       else fs |}.






Definition day_bar : BarData :=
  {| bar_time := day; bar_open := 1; bar_high := 3; bar_low := 1;
     bar_close := 2; bar_volume := 100; bar_instrument := "ES";
     bar_timeframe := "1D" |}.

(** The tick and the bar of the storage test. *)
Definition es_tick : TickData :=
  {| tick_time := 0; tick_bid := Some 1%Q; tick_ask := Some (3 # 2)%Q;
     tick_last := Some (5 # 4)%Q; tick_volume := Some 10;
     tick_instrument := "ES" |}.

Definition es_bar : BarData :=
  {| bar_time := 0; bar_open := 1; bar_high := 2; bar_low := 1 # 2;
     bar_close := 3 # 2; bar_volume := 100; bar_instrument := "ES";
     bar_timeframe := "5m" |}.

(** A tick of another instrument, with no price and no volume. *)
Definition nq_tick : TickData :=
  {| tick_time := day; tick_bid := None; tick_ask := None;
     tick_last := None; tick_volume := None; tick_instrument := "NQ" |}.

(** Three five-minute bars. *)
Definition history : option (outcome (list BarData)) :=
  Simulated.request_historical_data 10 (1 # 2) bar_draws
    connected_simulator "ES 12-25" "5m" 0 (minutes 15).

End Sample.

(** ** Notions of the specification *)

(** A decimal numeral: one or more digits, read in base ten. *)
Fixpoint all_digits (s : string) : bool :=
  match s with
  | EmptyString => true
  | String c r => (bool_decide (is_Some (PyInt.digit c)) && all_digits r)%bool
  end.

Fixpoint decimal_value (acc : Z) (s : string) : Z :=
  match s with
  | EmptyString => acc
  | String c r => decimal_value (10 * acc + default 0 (PyInt.digit c)) r
  end.

Definition is_decimal (s : string) : bool :=
  (Str.truthy s && all_digits s)%bool.

(** The stored prices of a bar are ordered: low <= open, close <= high. *)
Definition bar_ordered (b : BarData) : Prop :=
  (bar_low b <= bar_open b /\ bar_open b <= bar_high b
   /\ bar_low b <= bar_close b /\ bar_close b <= bar_high b)%Q.

(** Each bar opens at the close of the bar before it. *)
Definition opens_at_previous_close (bars : list BarData) : Prop :=
  forall (i : nat) (b1 b2 : BarData),
    bars !! i = Some b1 -> bars !! S i = Some b2 ->
    bar_open b2 = bar_close b1.


(** No stream thread numbered [n] or above has delivered a tick. *)
Definition silent_from (n : nat) (c : Simulated.Client) : Prop :=
  forall tid th, (n <= tid)%nat -> Simulated.threads c !! tid = Some th ->
                 Simulated.th_delivered th = [].

(** The world as the poll after [n] sleeps of [_wait_for_export] finds
    it. *)
Fixpoint polled (env : KinetickEOD.Environment) (poll : Z) (n : nat)
  (w : KinetickEOD.World) : KinetickEOD.World :=
  match n with
  | O => w
  | S n' =>
      polled env poll n'
        {| KinetickEOD.files :=
             KinetickEOD.agent env (KinetickEOD.clock w + poll)
               (KinetickEOD.files w);
           KinetickEOD.clock := KinetickEOD.clock w + poll;
           KinetickEOD.uuid_calls := KinetickEOD.uuid_calls w |}
  end.














(** ** The connector interface ([NinjaTraderClient]) and the services

    [handle] is what [subscribe_market_data] returns (the [cancel]
    closure); [outside] is what a historical request reads and changes
    outside the connector: the fuel of its loop, the random draws, the file
    system. *)

Class Connector (C : Type) : Type := mkConnector {
  handle : Type;
  outside : Type;
  conn_is_connected : C -> bool;
  conn_supports_realtime : C -> bool;
  conn_connect : C -> outcome unit * C;
  conn_subscribe : string -> C -> outcome handle * C;
  conn_cancel : handle -> C -> C;
  conn_request : string -> string -> datetime -> datetime -> C -> outside ->
                 option (outcome (list BarData) * outside)
}.

Record SimOutside : Type := mkSimOutside {
  so_fuel : nat;
  so_seed : Q;
  so_draws : nat -> Simulated.BarDraw
}.

#[export] Instance simulated_connector : Connector Simulated.Client :=
  {| handle := Simulated.cancel_handle;
     outside := SimOutside;
     conn_is_connected := Simulated.is_connected;
     conn_supports_realtime := Simulated.supports_realtime;
     conn_connect := fun c => (Return tt, Simulated.connect c);
     conn_subscribe := Simulated.subscribe_market_data;
     conn_cancel := Simulated.cancel;
     conn_request := fun instrument timeframe start end_ c o =>
       (fun r => (r, o))
         <$> Simulated.request_historical_data (so_fuel o) (so_seed o)
               (so_draws o) c instrument timeframe start end_ |}.



(** [HistoricalDataService.get_historical_bars]: the outcome, the client
    and the outside after the call. *)
Module HistoricalDataService.

Definition get_historical_bars {C} `{Connector C}
  (instrument timeframe : string) (start end_ : datetime)
  (client : C) (o : outside)
  : option (outcome (list BarData) * C * outside) :=
  let request (c : C) :=
    (fun r => (fst r, c, snd r))
      <$> conn_request instrument timeframe start end_ c o in
  if negb (conn_is_connected client) then
    match conn_connect client with
    | (Raise e, client') => Some (Raise e, client', o)
    | (Return _, client') => request client'
    end
  else request client.

End HistoricalDataService.

(** [MarketDataService]: the client it wraps and the cancel functions it
    has recorded.  The wrapper [_on_tick] around the callback only catches
    what the callback raises. *)
Module MarketDataService.

Record t (C : Type) `{Connector C} : Type := mk {
  _client : C;
  _subscriptions : list handle
}.

Arguments mk {C _} _ _.
Arguments _client {C _} _.
Arguments _subscriptions {C _} _.

(** The [while not is_connected] loop of [ensure_connection]: a
    [ConnectionError] is logged and, after a sleep, the loop goes on; a
    [connect()] that returns leaves the loop. *)
Fixpoint connect_loop {C} `{Connector C} (fuel : nat) (client : C)
  : option (outcome unit * C) :=
  match fuel with
  | O => None
  | S fuel' =>
      if negb (conn_is_connected client) then
        match conn_connect client with
        | (Return _, client') => Some (Return tt, client')
        | (Raise ConnectionError, client') => connect_loop fuel' client'
        | (Raise e, client') => Some (Raise e, client')
        end
      else Some (Return tt, client)
  end.

Definition ensure_connection {C} `{Connector C} (fuel : nat) (client : C)
  : option (outcome unit * C) :=
  if conn_is_connected client then Some (Return tt, client)
  else connect_loop fuel client.

Definition subscribe_realtime_ticks {C} `{Connector C} (fuel : nat)
  (instrument : string) (svc : t C) : option (outcome handle * t C) :=
  if negb (conn_supports_realtime (_client svc))
  then Some (Raise NotImplementedError, svc)
  else
    match ensure_connection fuel (_client svc) with
    | None => None
    | Some (Raise e, client') =>
        Some (Raise e, mk client' (_subscriptions svc))
    | Some (Return _, client') =>
        match conn_subscribe instrument client' with
        | (Raise e, client'') =>
            Some (Raise e, mk client'' (_subscriptions svc))
        | (Return cancel, client'') =>
            Some (Return cancel,
                  mk client'' (_subscriptions svc ++ [cancel]))
        end
    end.


End MarketDataService.

(** ** More notions for the properties *)

(** The ticks a stream hands over are well formed: the subscription's
    instrument, every field present, 0 <= bid <= last <= ask. *)
Definition tick_quoted (instrument : string) (t : TickData) : Prop :=
  tick_instrument t = instrument
  /\ exists bid ask last volume,
       tick_bid t = Some bid /\ tick_ask t = Some ask
       /\ tick_last t = Some last /\ tick_volume t = Some volume
       /\ (0 <= bid /\ bid <= last /\ last <= ask)%Q.

Definition tick_draw_ok (d : Simulated.TickDraw) : Prop :=
  unit_interval (Simulated.u_change d) /\ unit_interval (Simulated.u_spread d)
  /\ unit_interval (Simulated.u_last d).

(** The draws of every thread step of a trace are in range. *)
Definition action_ok (a : Simulated.action) : Prop :=
  match a with
  | Simulated.ThreadStep _ seed d => unit_interval seed /\ tick_draw_ok d
  | _ => True
  end.

(** The stores of a connector fit together: the thread numbered [tid] owns
    the event numbered [tid], and an entry of [_subscriptions] names a
    thread that exists, its event and its instrument; no two entries name
    the same event. *)
Definition stores_fit (c : Simulated.Client) : Prop :=
  length (Simulated.events c) = length (Simulated.threads c)
  /\ (forall tid th, Simulated.threads c !! tid = Some th ->
                     Simulated.th_stop th = tid)
  /\ Forall (fun sub =>
               snd (fst sub) = snd sub
               /\ exists th, Simulated.threads c !! snd sub = Some th
                             /\ Simulated.th_instrument th = fst (fst sub))
            (Simulated._subscriptions c)
  /\ NoDup (map (fun sub => snd (fst sub)) (Simulated._subscriptions c)).






(** ** Scenarios for the further properties *)

Module Scenario.

(** A connector with one stream that has delivered two ticks. *)
Definition streaming : Simulated.Client :=
  Simulated.run Sample.connected_simulator Sample.stream_trace.

Definition first_handle : Simulated.cancel_handle :=
  {| Simulated.c_event := 0; Simulated.c_thread := 0 |}.

Definition more_steps : list Simulated.action :=
  [Simulated.ThreadStep 0 (1 # 2) Sample.tick_draw;
   Simulated.Subscribe "NQ 12-25";
   Simulated.ThreadStep 0 (1 # 2) Sample.tick_draw;
   Simulated.ThreadStep 1 (1 # 2) Sample.tick_draw;
   Simulated.ThreadStep 1 (1 # 2) Sample.tick_draw].

End Scenario.

(** The call runs out of any amount of fuel: it never returns. *)
Definition forall_fuel_none {A} (run : nat -> option A) : Prop :=
  forall fuel : nat, run fuel = None.


(** An agent that, from time 1 on, answers with a row whose open price is
    not a number. *)
Definition garbling : KinetickEOD.Environment :=
  {| KinetickEOD.uuid4_hex := fun _ => "0af3";
     KinetickEOD.agent := fun t fs =>
       if 1 <=? t
       then <["data/exports/0af3.csv" :=
                "Date,Open" +:+ Sample.newline
                +:+ "1970-01-02,abc" +:+ Sample.newline]> fs
       else fs |}.



(** * Properties *)

(** ** Timeframes *)






Lemma digit_not_space (c : ascii) (d : Z) :
  PyInt.digit c = Some d ->
  PyInt.is_space c = false /\ c <> "+"%char /\ c <> "-"%char
  /\ c <> "_"%char.
Proof.
  destruct c as [[] [] [] [] [] [] [] []]; vm_compute;
    intros H; try discriminate H; repeat split; discriminate.
Qed.

Lemma digits_of_numeral (s : string) :
  forall (after : bool) (acc : Z),
    all_digits s = true -> s <> "" \/ after = true ->
    PyInt.digits after acc s = Some (decimal_value acc s).
Proof.
  induction s as [|c r IH]; intros after acc Hall Hne.
  - destruct Hne as [Hne | ->]; [congruence | reflexivity].
  - cbn [all_digits] in Hall. apply andb_prop in Hall as [Hc Hr].
    apply bool_decide_eq_true in Hc as [d Hd].
    cbn [PyInt.digits decimal_value]. rewrite Hd. cbn [default].
    apply IH; [exact Hr | right; reflexivity].
Qed.

(** Every decimal numeral is accepted by [int], with its value. *)
Lemma int_of_numeral (s : string) :
  is_decimal s = true -> PyInt.int s = Return (decimal_value 0 s).
Proof.
  unfold is_decimal. intros H. apply andb_prop in H as [Hne Hall].
  destruct s as [|c r]; [discriminate|].
  pose proof Hall as Hall'. cbn [all_digits] in Hall'.
  apply andb_prop in Hall' as [Hc _].
  apply bool_decide_eq_true in Hc as [d Hd].
  destruct (digit_not_space c d Hd) as (Hsp & Hplus & Hminus & _).
  unfold PyInt.int. cbn [PyInt.lstrip]. rewrite Hsp.
  assert (Hsigned : PyInt.signed (String c r)
                    = PyInt.digits false 0 (String c r)).
  { unfold PyInt.signed.
    destruct c as [[] [] [] [] [] [] [] []]; try reflexivity;
      exfalso; (apply Hplus; reflexivity) || (apply Hminus; reflexivity). }
  rewrite Hsigned, (digits_of_numeral _ false 0 Hall); [reflexivity|].
  left; discriminate.
Qed.

(** ** Rounding and uniform draws *)

Lemma round_half_even_range (q : Q) :
  Qfloor q <= round_half_even q <= Qfloor q + 1.
Proof.
  unfold round_half_even.
  destruct (Qcompare _ _); [destruct (Z.even _)|..]; lia.
Qed.

Lemma round_half_even_mono (x y : Q) :
  (x <= y)%Q -> round_half_even x <= round_half_even y.
Proof.
  intros Hxy.
  pose proof (Qfloor_resp_le x y Hxy) as Hfl.
  destruct (Z.eq_dec (Qfloor x) (Qfloor y)) as [E | NE].
  - unfold round_half_even. rewrite <- E.
    set (n := Qfloor x).
    destruct (Qcompare_spec (x - inject_Z n) (1 # 2)) as [Hx | Hx | Hx];
      destruct (Qcompare_spec (y - inject_Z n) (1 # 2)) as [Hy | Hy | Hy];
      try (destruct (Z.even n)); try lia;
      exfalso; rewrite ?Hx, ?Hy in *; lra.
  - pose proof (round_half_even_range x). pose proof (round_half_even_range y).
    lia.
Qed.

Lemma round2_mono (x y : Q) : (x <= y)%Q -> (round2 x <= round2 y)%Q.
Proof.
  intros Hxy. unfold round2, Qle. cbn [Qnum Qden].
  apply Z.mul_le_mono_nonneg_r; [lia|].
  apply round_half_even_mono. lra.
Qed.

Lemma uniform_between (a b r : Q) :
  (a <= b)%Q -> unit_interval r -> (a <= uniform a b r /\ uniform a b r <= b)%Q.
Proof.
  unfold uniform, unit_interval. intros Hab [H0 H1].
  assert (0 <= (b - a) * r)%Q by (apply Qmult_le_0_compat; lra).
  assert (0 <= (b - a) * (1 - r))%Q by (apply Qmult_le_0_compat; lra).
  split; lra.
Qed.

(** ** Simulated history *)

Section HistoryLoop.

Variable draws : nat -> Simulated.BarDraw.
Variables instrument timeframe : string.
Variable delta : timedelta.
Variable end_ : datetime.



Lemma history_loop_never_returns (fuel : nat) :
  forall (k : nat) (current : datetime) (price : Q) (bars : list BarData),
    delta <= 0 -> current < end_ ->
    Simulated.history_loop fuel draws instrument timeframe delta end_
      k current price bars = None.
Proof.
  induction fuel as [|fuel IH]; intros k current price bars Hd Hlt;
    [reflexivity|].
  cbn [Simulated.history_loop].
  destruct (Z.ltb_spec current end_); [|lia].
  apply IH; lia.
Qed.

Lemma history_loop_bars (fuel : nat) :
  forall (k : nat) (current : datetime) (price : Q)
         (bars result : list BarData),
    (forall i, Simulated.bar_draw_ok (draws i)) ->
    Simulated.history_loop fuel draws instrument timeframe delta end_
      k current price bars = Some result ->
    exists new,
      result = bars ++ new
      /\ Forall bar_ordered new
      /\ (forall b, head new = Some b -> bar_open b = round2 price)
      /\ opens_at_previous_close new.
Proof.
  induction fuel as [|fuel IH]; intros k current price bars result Hok Hrun;
    [discriminate|].
  cbn [Simulated.history_loop] in Hrun.
  destruct (current <? end_).
  - apply IH in Hrun as (new & -> & Hall & Hhead & Hchain); [|exact Hok].
    eexists (_ :: new). split; [rewrite <- app_assoc; reflexivity|].
    destruct (Hok k) as (Hh & Hl & Hc & _).
    set (high := (price + uniform 0 5 (Simulated.u_high (draws k)))%Q) in *.
    set (low := (price - uniform 0 5 (Simulated.u_low (draws k)))%Q) in *.
    assert (Hup : (price <= high)%Q).
    { subst high. destruct (uniform_between 0 5 _ ltac:(lra) Hh). lra. }
    assert (Hdown : (low <= price)%Q).
    { subst low. destruct (uniform_between 0 5 _ ltac:(lra) Hl). lra. }
    destruct (uniform_between low high _ ltac:(lra) Hc) as [Hc1 Hc2].
    split; [|split].
    + constructor; [|exact Hall].
      unfold bar_ordered; cbn. repeat split; apply round2_mono; assumption.
    + intros b [= <-]. reflexivity.
    + intros [|i] b1 b2 H1 H2.
      * cbn in H1. injection H1 as <-. cbn [bar_close].
        apply Hhead. destruct new; [discriminate|]. cbn in H2. cbn. congruence.
      * apply (Hchain i); assumption.
  - injection Hrun as <-. exists []. rewrite app_nil_r.
    repeat split; [constructor | discriminate |].
    intros i b1 b2 H1. rewrite lookup_nil in H1. discriminate.
Qed.

End HistoryLoop.




(** C4. With every draw in its range, each returned bar has
    low <= open <= high and low <= close <= high on its stored fields, and
    each bar opens at the stored close of the bar before it. *)
Theorem simulated_history_bars_ordered (fuel : nat) (seed : Q)
  (draws : nat -> Simulated.BarDraw) (c : Simulated.Client)
  (instrument timeframe : string) (start end_ : datetime)
  (bars : list BarData) :
  (forall i, Simulated.bar_draw_ok (draws i)) ->
  Simulated.request_historical_data fuel seed draws c instrument timeframe
    start end_ = Some (Return bars) ->
  Forall bar_ordered bars /\ opens_at_previous_close bars.
Proof.
  intros Hok Hrun. unfold Simulated.request_historical_data in Hrun.
  destruct (negb (Simulated.is_connected c)); [discriminate|].
  destruct (_timeframe_to_timedelta timeframe) as [delta|]; [|discriminate].
  destruct (Simulated.history_loop _ _ _ _ _ _ _ _ _ _) as [result|] eqn:E;
    [|discriminate].
  cbn in Hrun. injection Hrun as ->.
  apply history_loop_bars in E as (new & -> & Hall & _ & Hchain);
    [|exact Hok].
  split; assumption.
Qed.

Lemma sample_draws_ok (i : nat) : Simulated.bar_draw_ok (Sample.bar_draws i).
Proof.
  unfold Simulated.bar_draw_ok, unit_interval. cbn.
  repeat split; try lia; lra.
Qed.

Lemma simulated_history_bars_ordered_witness :
  exists bars,
    Sample.history = Some (Return bars)
    /\ length bars = 3%nat
    /\ Forall bar_ordered bars /\ opens_at_previous_close bars.
Proof.
  destruct Sample.history as [[bars|]|] eqn:E; try (vm_compute in E; discriminate E).
  exists bars. split; [reflexivity|]. split.
  - vm_compute in E. injection E as <-. reflexivity.
  - apply (simulated_history_bars_ordered 10 (1 # 2) Sample.bar_draws
             Sample.connected_simulator "ES 12-25" "5m" 0 (minutes 15) bars).
    + exact sample_draws_ok.
    + exact E.
Defined.

(** ** The simulated connector as a state machine *)

Lemma set_events_fields (subs : list (string * nat * nat))
  (c : Simulated.Client) :
  let c' := foldl (fun acc sub => Simulated.set_event (snd (fst sub)) acc)
                  c subs in
  Simulated._stop_event c' = Simulated._stop_event c
  /\ Simulated.threads c' = Simulated.threads c
  /\ Simulated._connected c' = Simulated._connected c.
Proof.
  revert c. induction subs as [|sub subs IH]; intros c; cbn [foldl].
  - auto.
  - destruct (IH (Simulated.set_event (snd (fst sub)) c)) as (H1 & H2 & H3).
    cbn zeta in *. rewrite H1, H2, H3. auto.
Qed.

Lemma disconnect_stop_event (c : Simulated.Client) :
  Simulated._stop_event (Simulated.disconnect c) = true.
Proof.
  unfold Simulated.disconnect, Simulated._set_connected.
  cbn [Simulated._stop_event Simulated._subscriptions].
  match goal with
  | |- Simulated._stop_event (foldl ?f ?c0 ?l) = _ =>
      destruct (set_events_fields l c0) as (H & _ & _)
  end.
  cbn zeta in H. rewrite H. reflexivity.
Qed.

Lemma disconnect_threads (c : Simulated.Client) :
  Simulated.threads (Simulated.disconnect c) = Simulated.threads c.
Proof.
  unfold Simulated.disconnect, Simulated._set_connected.
  cbn [Simulated.threads Simulated._subscriptions].
  match goal with
  | |- Simulated.threads (foldl ?f ?c0 ?l) = _ =>
      destruct (set_events_fields l c0) as (_ & H & _)
  end.
  cbn zeta in H. rewrite H. reflexivity.
Qed.

Lemma disconnect_keeps_stop_event (c : Simulated.Client) :
  Simulated._stop_event c = true ->
  Simulated._stop_event (Simulated.disconnect c) = true.
Proof. intros _. apply disconnect_stop_event. Qed.

(** No operation clears the connector-wide stop event. *)
Lemma step_keeps_stop_event (c : Simulated.Client) (a : Simulated.action) :
  Simulated._stop_event c = true ->
  Simulated._stop_event (Simulated.step c a) = true.
Proof.
  intros H. destruct a as [| |instrument|h|tid seed d]; cbn [Simulated.step].
  - exact H.
  - apply disconnect_stop_event.
  - unfold Simulated.subscribe_market_data.
    destruct (negb (Simulated.is_connected c)); exact H.
  - exact H.
  - unfold Simulated.thread_step.
    destruct (Simulated.threads c !! tid); exact H.
Qed.

Lemma run_keeps_stop_event (trace : list Simulated.action) :
  forall c, Simulated._stop_event c = true ->
            Simulated._stop_event (Simulated.run c trace) = true.
Proof.
  induction trace as [|a trace IH]; intros c H; [exact H|].
  apply IH, step_keeps_stop_event, H.
Qed.

(** With the stop event set, a step of a stream delivers nothing. *)
Lemma stream_step_stopped (seed : Q) (d : Simulated.TickDraw)
  (c : Simulated.Client) (th : Simulated.StreamThread) :
  Simulated._stop_event c = true ->
  Simulated.th_delivered (Simulated.stream_step seed d c th)
  = Simulated.th_delivered th
  /\ forall last, Simulated.th_pc th = Simulated.AtLoopHead last ->
       Simulated.th_pc (Simulated.stream_step seed d c th)
       = Simulated.Finished.
Proof.
  intros H. unfold Simulated.stream_step. rewrite H, orb_true_r.
  destruct (Simulated.th_pc th); split; try reflexivity;
    intros last' E; try discriminate E; reflexivity.
Qed.

Lemma step_keeps_silent (n : nat) (c : Simulated.Client)
  (a : Simulated.action) :
  Simulated._stop_event c = true -> silent_from n c ->
  silent_from n (Simulated.step c a).
Proof.
  intros Hstop Hsil tid th Hn.
  destruct a as [| |instrument|h|tid' seed d]; cbn [Simulated.step].
  - apply Hsil, Hn.
  - rewrite disconnect_threads. apply Hsil, Hn.
  - unfold Simulated.subscribe_market_data.
    destruct (negb (Simulated.is_connected c)); cbn [snd Simulated.threads];
      [apply Hsil, Hn|].
    intros Hl. apply lookup_app_Some in Hl as [Hl | [_ Hl]];
      [apply (Hsil tid th Hn Hl)|].
    apply list_lookup_singleton_Some in Hl as [_ <-]. reflexivity.
  - apply Hsil, Hn.
  - unfold Simulated.thread_step.
    destruct (Simulated.threads c !! tid') as [th'|] eqn:E;
      [|apply Hsil, Hn].
    cbn [Simulated.threads]. intros Hl.
    destruct (decide (tid' = tid)) as [-> | Hne].
    + rewrite list_lookup_insert_eq in Hl
        by (apply lookup_lt_is_Some; eauto).
      injection Hl as <-.
      rewrite (proj1 (stream_step_stopped seed d c th' Hstop)).
      apply (Hsil tid th' Hn E).
    + rewrite list_lookup_insert_ne in Hl by exact Hne.
      apply (Hsil tid th Hn Hl).
Qed.

Lemma run_keeps_silent (n : nat) (trace : list Simulated.action) :
  forall c, Simulated._stop_event c = true -> silent_from n c ->
            silent_from n (Simulated.run c trace).
Proof.
  induction trace as [|a trace IH]; intros c Hstop Hsil; [exact Hsil|].
  apply IH; [apply step_keeps_stop_event, Hstop|].
  apply step_keeps_silent; assumption.
Qed.

(** On a connector that was never disconnected the stream does deliver. *)
Example fresh_stream_delivers :
  (fun th => length (Simulated.th_delivered th))
    <$> (Simulated.threads
           (Simulated.run Sample.connected_simulator Sample.stream_trace)
         !! 0%nat)
  = Some 2%nat.
Proof. reflexivity. Qed.

(** C9. After [disconnect()] and [connect()] the connector is connected and
    its stop event is still set; no later operation clears it; a
    subscription made then starts a stream thread, and in every run that
    thread, like every thread started after the reconnection, has delivered
    no tick, and leaves its loop at its first test of the condition. *)
Theorem reconnect_keeps_stop_event (c0 : Simulated.Client) :
  let c1 := Simulated.connect (Simulated.disconnect c0) in
  Simulated.is_connected c1 = true
  /\ Simulated._stop_event c1 = true
  /\ (forall trace, Simulated._stop_event (Simulated.run c1 trace) = true)
  /\ (forall instrument : string,
        exists h c2,
          Simulated.subscribe_market_data instrument c1 = (Return h, c2)
          /\ Simulated.c_thread h = length (Simulated.threads c1)
          /\ exists th, Simulated.threads c2 !! Simulated.c_thread h = Some th
                        /\ Simulated.th_pc th = Simulated.Started)
  /\ (forall trace tid th,
        (length (Simulated.threads c1) <= tid)%nat ->
        Simulated.threads (Simulated.run c1 trace) !! tid = Some th ->
        Simulated.th_delivered th = []
        /\ forall last seed d,
             Simulated.th_pc th = Simulated.AtLoopHead last ->
             exists th',
               Simulated.threads
                 (Simulated.thread_step tid seed d (Simulated.run c1 trace))
               !! tid = Some th'
               /\ Simulated.th_pc th' = Simulated.Finished
               /\ Simulated.th_delivered th' = []).
Proof.
  intros c1.
  assert (Hstop : Simulated._stop_event c1 = true)
    by apply disconnect_stop_event.
  assert (Hsil : silent_from (length (Simulated.threads c1)) c1).
  { intros tid th Hn Hl. apply lookup_lt_Some in Hl. lia. }
  split; [reflexivity|]. split; [exact Hstop|].
  split; [intros trace; apply run_keeps_stop_event, Hstop|].
  split.
  - intros instrument. unfold Simulated.subscribe_market_data.
    change (Simulated.is_connected c1) with true. cbn [negb].
    do 2 eexists. split; [reflexivity|]. split; [reflexivity|].
    cbn [Simulated.c_thread Simulated.threads].
    eexists. split; [apply list_lookup_middle; reflexivity | reflexivity].
  - intros trace tid th Hn Hl.
    pose proof (run_keeps_stop_event trace c1 Hstop) as Hstop'.
    pose proof (run_keeps_silent _ trace c1 Hstop Hsil tid th Hn Hl) as Hd.
    split; [exact Hd|].
    intros last seed d Hpc. unfold Simulated.thread_step. rewrite Hl.
    cbn [Simulated.threads].
    eexists. split.
    + apply list_lookup_insert_eq. apply lookup_lt_is_Some. eauto.
    + destruct (stream_step_stopped seed d _ th Hstop') as [E1 E2].
      split; [apply (E2 last Hpc) | rewrite E1; exact Hd].
Qed.

Lemma reconnect_keeps_stop_event_witness :
  exists th,
    Simulated.threads
      (Simulated.run
         (Simulated.connect (Simulated.disconnect Sample.connected_simulator))
         Sample.stream_trace) !! 0%nat = Some th
    /\ Simulated.th_pc th = Simulated.Finished
    /\ Simulated.th_delivered th = [].
Proof.
  eexists. split; [reflexivity|]. split; [reflexivity|].
  apply (proj2 (proj2 (proj2 (proj2
           (reconnect_keeps_stop_event Sample.connected_simulator))))
           Sample.stream_trace 0%nat).
  - cbn. lia.
  - reflexivity.
Defined.

(** C5. While not connected, [subscribe_market_data] of the simulated
    connector raises [ConnectionError] and leaves the connector as it was
    (no thread, no subscription), and [request_historical_data] of both
    connectors raises [ConnectionError]; the file-handshake one leaves the
    file system as it was. *)
Theorem not_connected_raises `{L : Library} :
  (forall (c : Simulated.Client) (instrument : string),
     Simulated.is_connected c = false ->
     Simulated.subscribe_market_data instrument c = (Raise ConnectionError, c)
     /\ forall fuel seed draws timeframe start end_,
          Simulated.request_historical_data fuel seed draws c instrument
            timeframe start end_ = Some (Raise ConnectionError))
  /\ (forall (k : KinetickEOD.Client) (env : KinetickEOD.Environment)
             (w : KinetickEOD.World) (fuel : nat)
             (instrument timeframe : string) (start end_ : datetime),
        KinetickEOD.is_connected k = false ->
        KinetickEOD.request_historical_data fuel env k instrument timeframe
          start end_ w = Some (Raise ConnectionError, w)).
Proof.
  split.
  - intros c instrument H.
    unfold Simulated.subscribe_market_data,
      Simulated.request_historical_data. rewrite H. cbn [negb].
    split; [reflexivity | intros; reflexivity].
  - intros k env w fuel instrument timeframe start end_ H.
    unfold KinetickEOD.request_historical_data. rewrite H. reflexivity.
Qed.

Lemma not_connected_raises_witness :
  Simulated.subscribe_market_data "ES 12-25" Simulated.new_client
  = (Raise ConnectionError, Simulated.new_client).
Proof.
  apply (proj1 (@not_connected_raises Sample.library)
           Simulated.new_client "ES 12-25").
  reflexivity.
Defined.

(** ** The file handshake *)

Lemma last_char_app (a b : string) :
  b <> "" -> Str.last_char (a +:+ b) = Str.last_char b.
Proof.
  intros Hb. induction a as [|ch a IH]; [reflexivity|].
  change (String ch a +:+ b) with (String ch (a +:+ b)).
  cbn [Str.last_char]. rewrite IH.
  destruct (a +:+ b) eqn:E; [|reflexivity].
  destruct a; [change (b = "") in E; congruence | discriminate].
Qed.

Lemma command_path_not_export_path (c : KinetickEOD.Client) (id id' : string) :
  KinetickEOD.command_path_of c id <> KinetickEOD.export_path_of c id'.
Proof.
  intros E. apply (f_equal Str.last_char) in E. revert E.
  unfold KinetickEOD.command_path_of, KinetickEOD.export_path_of,
    KinetickEOD.path_join.
  assert (Ht : forall x, x +:+ ".txt" <> "") by (intros []; discriminate).
  assert (Hv : forall x, x +:+ ".csv" <> "") by (intros []; discriminate).
  rewrite !last_char_app; try discriminate; auto.
Qed.

Lemma exists_false (path : string) (w : KinetickEOD.World) :
  KinetickEOD.exists_ path w = false <-> KinetickEOD.files w !! path = None.
Proof.
  unfold KinetickEOD.exists_. rewrite bool_decide_eq_false.
  rewrite <- eq_None_not_Some. reflexivity.
Qed.

Lemma exists_true (path : string) (w : KinetickEOD.World) :
  KinetickEOD.exists_ path w = true <-> is_Some (KinetickEOD.files w !! path).
Proof. unfold KinetickEOD.exists_. apply bool_decide_eq_true. Qed.

Lemma clock_polled (env : KinetickEOD.Environment) (poll : Z) (n : nat) :
  forall w, KinetickEOD.clock (polled env poll n w)
            = KinetickEOD.clock w + Z.of_nat n * poll.
Proof.
  induction n as [|n IH]; intros w; [cbn; lia|].
  cbn [polled]. rewrite IH. cbn [KinetickEOD.clock]. lia.
Qed.

Section WaitLoop.

Context {L : Library}.
Variable env : KinetickEOD.Environment.
Variable c : KinetickEOD.Client.
Variable start_time : Z.
Variables export_path instrument : string.


(** The poll after [n] sleeps is the first to find the file, and comes
    before the deadline: the loop parses the file there and deletes it. *)
Lemma wait_loop_finds (n : nat) :
  forall (fuel : nat) (w : KinetickEOD.World) (poll timeout : Z),
    poll = KinetickEOD._poll_interval c ->
    timeout = KinetickEOD._export_timeout c ->
    0 <= poll -> (n < fuel)%nat ->
    (forall j : nat, (j < n)%nat ->
       KinetickEOD.files (polled env poll j w) !! export_path = None) ->
    is_Some (KinetickEOD.files (polled env poll n w) !! export_path) ->
    KinetickEOD.clock w + Z.of_nat n * poll - start_time < timeout ->
    KinetickEOD.wait_loop fuel env c start_time export_path instrument w
    = match KinetickEOD._parse_export export_path instrument
              (polled env poll n w) with
      | Return bars =>
          Some (Return bars,
                KinetickEOD.unlink export_path (polled env poll n w))
      | Raise e => Some (Raise e, polled env poll n w)
      end.
Proof.
  induction n as [|n IH];
    intros fuel w poll timeout Epoll Etimeout Hpoll Hfuel Hnone Hsome Hclock;
    (destruct fuel as [|fuel]; [lia|]);
    cbn [KinetickEOD.wait_loop]; rewrite <- Epoll, <- Etimeout.
  - cbn [polled] in *.
    destruct (Z.ltb_spec (KinetickEOD.clock w - start_time) timeout);
      [|lia].
    apply exists_true in Hsome. rewrite Hsome. reflexivity.
  - destruct (Z.ltb_spec (KinetickEOD.clock w - start_time) timeout);
      [|nia].
    assert (Hno : KinetickEOD.exists_ export_path w = false).
    { apply exists_false. apply (Hnone 0%nat). lia. }
    rewrite Hno. unfold KinetickEOD.sleep.
    destruct (Z.ltb_spec poll 0); [lia|].
    cbn [polled].
    apply (IH _ _ poll timeout Epoll Etimeout Hpoll);
      [lia | | exact Hsome |].
    + intros j Hj. apply (Hnone (S j)). lia.
    + cbn [KinetickEOD.clock]. lia.
Qed.

End WaitLoop.

Section ParseExport.

Context {L : Library}.





(** After the cleanup step the command file is gone. *)
Lemma cleanup_removes (path : string) (w : KinetickEOD.World) :
  KinetickEOD.files
    (if KinetickEOD.exists_ path w then KinetickEOD.unlink path w else w)
  !! path = None.
Proof.
  destruct (KinetickEOD.exists_ path w) eqn:E.
  - apply lookup_delete_eq.
  - apply exists_false, E.
Qed.

Lemma cleanup_keeps (path other : string) (w : KinetickEOD.World) :
  KinetickEOD.files w !! other = None ->
  KinetickEOD.files
    (if KinetickEOD.exists_ path w then KinetickEOD.unlink path w else w)
  !! other = None.
Proof.
  intros H. destruct (KinetickEOD.exists_ path w); [|exact H].
  cbn. rewrite lookup_delete_None. right. exact H.
Qed.



End ParseExport.



(** ** Rows of the export file *)




Section Converted.

Context {L : Library}.




End Converted.



(** ** Storage *)

Lemma insert_by_time_perm {Row} (time_of : Row -> string) (r : Row)
  (sorted : list Row) :
  Permutation (Storage.insert_by_time time_of r sorted) (r :: sorted).
Proof.
  induction sorted as [|r' rest IH]; [reflexivity|].
  cbn [Storage.insert_by_time].
  destruct (String.leb _ _); [reflexivity|].
  rewrite IH. apply perm_swap.
Qed.

Lemma order_by_time_perm {Row} (time_of : Row -> string) (rows : list Row) :
  Permutation (Storage.order_by_time time_of rows) rows.
Proof.
  induction rows as [|r rows IH]; [reflexivity|].
  cbn [Storage.order_by_time foldr].
  rewrite insert_by_time_perm. constructor. exact IH.
Qed.

Lemma filter_all {A} (l : list A) : List.filter (fun _ => true) l = l.
Proof. induction l as [|x l IH]; [reflexivity|]. cbn. rewrite IH. reflexivity. Qed.

(** A query without clause and without limit selects the whole table, in
    time order. *)
Lemma select_all {Row} (instrument_of : Row -> string)
  (timeframe_of : Row -> option string) (time_of : Row -> string)
  (table : list Row) :
  Storage.select instrument_of timeframe_of time_of
    {| Storage.q_clauses := []; Storage.q_limit := None |} table
  = Storage.order_by_time time_of table.
Proof.
  unfold Storage.select. cbn [Storage.q_clauses Storage.q_limit forallb
                              Storage.apply_limit].
  rewrite filter_all. reflexivity.
Qed.



Section RoundTrip.

Context {L : Library}.








End RoundTrip.

Section FetchAndSave.

Context {L : Library}.


(** C10. An empty instrument (or timeframe) string filters nothing and a
    limit of 0 bounds nothing: the fetch equals the one without that
    argument, and with no other filter it converts every row of the
    table. *)
Theorem fetch_filters_by_truthiness (db : Storage.Database)
  (instrument timeframe : option string) (start end_ : option datetime)
  (limit : option Z) :
  Storage.fetch_ticks (Some "") start end_ limit db
    = Storage.fetch_ticks None start end_ limit db
  /\ Storage.fetch_ticks instrument start end_ (Some 0) db
    = Storage.fetch_ticks instrument start end_ None db
  /\ Storage.fetch_bars (Some "") timeframe start end_ limit db
    = Storage.fetch_bars None timeframe start end_ limit db
  /\ Storage.fetch_bars instrument (Some "") start end_ limit db
    = Storage.fetch_bars instrument None start end_ limit db
  /\ Storage.fetch_bars instrument timeframe start end_ (Some 0) db
    = Storage.fetch_bars instrument timeframe start end_ None db
  /\ (exists rows,
        Permutation rows (Storage.ticks db)
        /\ Storage.fetch_ticks (Some "") None None (Some 0) db
           = Storage.map_outcome Storage._row_to_tick rows)
  /\ (exists rows,
        Permutation rows (Storage.bars db)
        /\ Storage.fetch_bars (Some "") (Some "") None None (Some 0) db
           = Storage.map_outcome Storage._row_to_bar rows).
Proof.
  repeat split; try reflexivity.
  - exists (Storage.order_by_time Storage.tr_time (Storage.ticks db)).
    split; [apply order_by_time_perm|].
    unfold Storage.fetch_ticks, Storage.select_ticks.
    cbn [Storage.truthy_str Storage.truthy_int Storage.clause_if app
         Str.truthy Str.is_empty negb Z.eqb].
    rewrite select_all. reflexivity.
  - exists (Storage.order_by_time Storage.br_time (Storage.bars db)).
    split; [apply order_by_time_perm|].
    unfold Storage.fetch_bars, Storage.select_bars.
    cbn [Storage.truthy_str Storage.truthy_int Storage.clause_if app
         Str.truthy Str.is_empty negb Z.eqb].
    rewrite select_all. reflexivity.
Qed.

End FetchAndSave.


(** The storage test of the repository, on the model. *)
Example storage_test :
  let db1 := Storage.save_ticks (L := Sample.library) [Sample.es_tick]
               Storage.empty_db in
  let db2 := Storage.save_bars (L := Sample.library) [Sample.es_bar]
               (snd db1) in
  fst db1 = 1 /\ fst db2 = 1
  /\ (fun ts => tick_last <$> head ts)
       <$> (match Storage.fetch_ticks (L := Sample.library) (Some "ES")
                    None None None (snd db2) with
            | Return ts => Some ts
            | Raise _ => None
            end) = Some (Some (Some (5 # 4)%Q)).
Proof. repeat split. Qed.

(** With a limit of 0 and an empty instrument both stored ticks come
    back, the earlier first. *)
Example fetch_empty_filters :
  Storage.fetch_ticks (L := Sample.library) (Some "") None None (Some 0)
    (snd (Storage.save_ticks (L := Sample.library)
            [Sample.nq_tick; Sample.es_tick] Storage.empty_db))
  = Return [Sample.es_tick; Sample.nq_tick].
Proof. reflexivity. Qed.

(** A fetch that the agent answers: the bar comes back, tagged "1D"
    whatever the timeframe asked for, and both files are gone. *)
Example kinetick_fetch_succeeds :
  (fun r => (fst r, KinetickEOD.files (snd r)))
    <$> KinetickEOD.request_historical_data (L := Sample.library) 5
          Sample.answering Sample.client "ES" "5m" 0 Sample.day
          Sample.empty_world
  = Some (Return [Sample.day_bar], ∅).
Proof. vm_compute. reflexivity. Qed.

(** * Further properties *)

(** ** Streams of the simulated connector *)

Lemma round2_nonneg (q : Q) : (0 <= q)%Q -> (0 <= round2 q)%Q.
Proof.
  intros H. apply round2_mono in H.
  eapply Qle_trans; [|exact H]. vm_compute. discriminate.
Qed.

Lemma Qmax0_nonneg (q : Q) : (0 <= Qmax0 q)%Q.
Proof.
  unfold Qmax0. destruct (Qle_bool 0 q) eqn:E.
  - apply Qle_bool_iff, E.
  - lra.
Qed.

Lemma make_tick_quoted (instrument : string) (last_price : Q)
  (d : Simulated.TickDraw) :
  tick_draw_ok d ->
  tick_quoted instrument (fst (Simulated.make_tick instrument last_price d)).
Proof.
  intros (_ & Hs & Hl). unfold Simulated.make_tick. cbn [fst].
  set (bid := Qmax0 _).
  set (ask := (bid + uniform (1 # 4) (5 # 4) (Simulated.u_spread d))%Q).
  assert (Hbid : (0 <= bid)%Q) by apply Qmax0_nonneg.
  assert (Hask : (bid <= ask)%Q).
  { subst ask.
    destruct (uniform_between (1 # 4) (5 # 4) _ ltac:(lra) Hs). lra. }
  destruct (uniform_between 0 (ask - bid) _ ltac:(lra) Hl) as [H1 H2].
  split; [reflexivity|].
  do 4 eexists. repeat split; cbn; try reflexivity.
  - apply round2_nonneg, Hbid.
  - apply round2_mono. lra.
  - apply round2_mono. lra.
Qed.

Lemma stream_step_quoted (seed : Q) (d : Simulated.TickDraw)
  (c : Simulated.Client) (th : Simulated.StreamThread) :
  tick_draw_ok d ->
  Forall (tick_quoted (Simulated.th_instrument th))
         (Simulated.th_delivered th) ->
  Simulated.th_instrument (Simulated.stream_step seed d c th)
  = Simulated.th_instrument th
  /\ Forall (tick_quoted (Simulated.th_instrument th))
            (Simulated.th_delivered (Simulated.stream_step seed d c th)).
Proof.
  intros Hd Hall. unfold Simulated.stream_step.
  destruct (Simulated.th_pc th) as [|last_price|]; [auto| |auto].
  destruct (_ || _)%bool; [auto|].
  pose proof (make_tick_quoted (Simulated.th_instrument th) last_price d Hd)
    as Hq.
  destruct (Simulated.make_tick _ _ _) as [tick last']. cbn in *.
  split; [reflexivity|]. apply Forall_app. split; [exact Hall|].
  constructor; [exact Hq | constructor].
Qed.

Lemma step_keeps_quoted (c : Simulated.Client) (a : Simulated.action) :
  action_ok a ->
  (forall tid th, Simulated.threads c !! tid = Some th ->
     Forall (tick_quoted (Simulated.th_instrument th))
            (Simulated.th_delivered th)) ->
  forall tid th, Simulated.threads (Simulated.step c a) !! tid = Some th ->
    Forall (tick_quoted (Simulated.th_instrument th))
           (Simulated.th_delivered th).
Proof.
  intros Hok Hinv tid th.
  destruct a as [| |instrument|h|tid' seed d]; cbn [Simulated.step].
  - apply Hinv.
  - rewrite disconnect_threads. apply Hinv.
  - unfold Simulated.subscribe_market_data.
    destruct (negb (Simulated.is_connected c)); cbn [snd Simulated.threads];
      [apply Hinv|].
    intros Hl. apply lookup_app_Some in Hl as [Hl | [_ Hl]];
      [apply (Hinv tid th Hl)|].
    apply list_lookup_singleton_Some in Hl as [_ <-]. constructor.
  - apply Hinv.
  - unfold Simulated.thread_step.
    destruct (Simulated.threads c !! tid') as [th'|] eqn:E; [|apply Hinv].
    cbn [Simulated.threads]. intros Hl.
    destruct (decide (tid' = tid)) as [-> | Hne].
    + rewrite list_lookup_insert_eq in Hl
        by (apply lookup_lt_is_Some; eauto).
      injection Hl as <-. destruct Hok as [_ Hd].
      destruct (stream_step_quoted seed d c th' Hd (Hinv tid th' E))
        as [-> H]. exact H.
    + rewrite list_lookup_insert_ne in Hl by exact Hne.
      apply (Hinv tid th Hl).
Qed.

(** X1. In every run of a new connector whose draws are in range, every
    tick a stream has delivered carries the instrument of its
    subscription, has bid, ask, last and volume present, and has
    0 <= bid <= last <= ask. *)
Theorem delivered_ticks_quoted (trace : list Simulated.action) :
  Forall action_ok trace ->
  forall tid th,
    Simulated.threads (Simulated.run Simulated.new_client trace) !! tid
    = Some th ->
    Forall (tick_quoted (Simulated.th_instrument th))
           (Simulated.th_delivered th).
Proof.
  intros Hok.
  enough (H : forall c,
            (forall tid th, Simulated.threads c !! tid = Some th ->
               Forall (tick_quoted (Simulated.th_instrument th))
                      (Simulated.th_delivered th)) ->
            forall tid th,
              Simulated.threads (Simulated.run c trace) !! tid = Some th ->
              Forall (tick_quoted (Simulated.th_instrument th))
                     (Simulated.th_delivered th)).
  { apply H. intros tid th Hl. cbn in Hl. rewrite lookup_nil in Hl.
    discriminate. }
  induction Hok as [|a trace Ha _ IH]; intros c Hinv; [exact Hinv|].
  apply IH. apply step_keeps_quoted; assumption.
Qed.

Lemma sample_trace_ok : Forall action_ok (Simulated.Connect :: Sample.stream_trace).
Proof.
  repeat constructor; cbn; lra.
Qed.

Lemma delivered_ticks_quoted_witness :
  exists th,
    Simulated.threads
      (Simulated.run Simulated.new_client
         (Simulated.Connect :: Sample.stream_trace)) !! 0%nat = Some th
    /\ length (Simulated.th_delivered th) = 2%nat
    /\ Forall (tick_quoted (Simulated.th_instrument th))
              (Simulated.th_delivered th).
Proof.
  eexists. split; [reflexivity|]. split; [reflexivity|].
  apply (delivered_ticks_quoted (Simulated.Connect :: Sample.stream_trace)
           sample_trace_ok 0%nat).
  reflexivity.
Defined.

(** ** Stopping streams *)




Lemma set_event_other (ev ev' : nat) (c : Simulated.Client) :
  ev <> ev' ->
  Simulated.is_set ev (Simulated.set_event ev' c) = Simulated.is_set ev c.
Proof.
  intros Hne. unfold Simulated.is_set. cbn.
  rewrite list_lookup_insert_ne by congruence. reflexivity.
Qed.







(** The other stream of that run goes on delivering. *)
Example other_stream_delivers :
  (fun th => length (Simulated.th_delivered th))
    <$> (Simulated.threads
           (Simulated.run (Simulated.cancel Scenario.first_handle
                             Scenario.streaming) Scenario.more_steps)
         !! 1%nat)
  = Some 1%nat.
Proof. reflexivity. Qed.

Lemma filter_filter_comm {A} (P Q : A -> Prop)
  `{forall x, Decision (P x)} `{forall x, Decision (Q x)} (l : list A) :
  filter P (filter Q l) = filter Q (filter P l).
Proof.
  rewrite !list_filter_filter. apply list_filter_iff. tauto.
Qed.

Lemma filter_filter_same {A} (P : A -> Prop) `{forall x, Decision (P x)}
  (l : list A) :
  filter P (filter P l) = filter P l.
Proof.
  rewrite list_filter_filter. apply list_filter_iff. tauto.
Qed.

Lemma cancel_cancel (c : Simulated.Client) (h h' : Simulated.cancel_handle) :
  Simulated.cancel h (Simulated.cancel h c) = Simulated.cancel h c
  /\ Simulated.cancel h (Simulated.cancel h' c)
     = Simulated.cancel h' (Simulated.cancel h c).
Proof.
  unfold Simulated.cancel, Simulated.set_event.
  cbn [Simulated._connected Simulated._stop_event Simulated.events
       Simulated.threads Simulated._subscriptions].
  split.
  - rewrite list_insert_insert_eq, filter_filter_same. reflexivity.
  - rewrite filter_filter_comm. f_equal.
    destruct (decide (Simulated.c_event h = Simulated.c_event h'))
      as [-> | Hne]; [reflexivity|].
    apply list_insert_insert_ne, Hne.
Qed.

(** X4. [cancel()] may be called again, and cancels may be made in any
    order: a second call changes nothing, and two cancels commute. *)
Theorem cancel_idempotent_commutes (c : Simulated.Client)
  (h h' : Simulated.cancel_handle) :
  Simulated.cancel h (Simulated.cancel h c) = Simulated.cancel h c
  /\ Simulated.cancel h (Simulated.cancel h' c)
     = Simulated.cancel h' (Simulated.cancel h c).
Proof. exact (cancel_cancel c h h'). Qed.

Lemma cancel_leaves_other_streams_aux (c : Simulated.Client)
  (h : Simulated.cancel_handle) :
  (forall (seed : Q) (d : Simulated.TickDraw) (th : Simulated.StreamThread),
     Simulated.th_stop th <> Simulated.c_event h ->
     Simulated.stream_step seed d (Simulated.cancel h c) th
     = Simulated.stream_step seed d c th)
  /\ Simulated.threads (Simulated.cancel h c) = Simulated.threads c
  /\ (forall sub : string * nat * nat,
        sub ∈ Simulated._subscriptions (Simulated.cancel h c)
        <-> snd (fst sub) <> Simulated.c_event h
            /\ sub ∈ Simulated._subscriptions c).
Proof.
  split; [|split; [reflexivity|]].
  - intros seed d th Hne. unfold Simulated.stream_step.
    replace (Simulated.is_set (Simulated.th_stop th) (Simulated.cancel h c))
      with (Simulated.is_set (Simulated.th_stop th) c); [reflexivity|].
    symmetry.
    apply (set_event_other (Simulated.th_stop th) (Simulated.c_event h) c Hne).
  - intros sub. unfold Simulated.cancel. cbn [Simulated._subscriptions].
    apply (list_elem_of_filter
             (fun s : string * nat * nat => snd (fst s) <> Simulated.c_event h)).
Qed.

(** X5. [cancel()] stops no other stream: the connector's stop event and
    the events of the other subscriptions are as before, so a thread of
    another subscription steps as it would have, and the entries of the
    other subscriptions stay recorded. *)
Theorem cancel_leaves_other_streams (c : Simulated.Client)
  (h : Simulated.cancel_handle) :
  (forall (seed : Q) (d : Simulated.TickDraw) (th : Simulated.StreamThread),
     Simulated.th_stop th <> Simulated.c_event h ->
     Simulated.stream_step seed d (Simulated.cancel h c) th
     = Simulated.stream_step seed d c th)
  /\ Simulated.threads (Simulated.cancel h c) = Simulated.threads c
  /\ (forall sub : string * nat * nat,
        sub ∈ Simulated._subscriptions (Simulated.cancel h c)
        <-> snd (fst sub) <> Simulated.c_event h
            /\ sub ∈ Simulated._subscriptions c).
Proof. exact (cancel_leaves_other_streams_aux c h). Qed.

Lemma cancel_leaves_other_streams_witness :
  Simulated.stream_step (1 # 2) Sample.tick_draw
    (Simulated.cancel Scenario.first_handle Scenario.streaming)
    {| Simulated.th_instrument := "NQ 12-25"; Simulated.th_stop := 1;
       Simulated.th_pc := Simulated.AtLoopHead 2000;
       Simulated.th_delivered := [] |}
  = Simulated.stream_step (1 # 2) Sample.tick_draw Scenario.streaming
      {| Simulated.th_instrument := "NQ 12-25"; Simulated.th_stop := 1;
         Simulated.th_pc := Simulated.AtLoopHead 2000;
         Simulated.th_delivered := [] |}.
Proof.
  apply (proj1 (cancel_leaves_other_streams Scenario.streaming
                  Scenario.first_handle)).
  cbn. lia.
Defined.

(** ** The stores of the simulated connector *)

Lemma set_events_length (subs : list (string * nat * nat))
  (c : Simulated.Client) :
  length (Simulated.events
            (foldl (fun acc sub => Simulated.set_event (snd (fst sub)) acc)
                   c subs))
  = length (Simulated.events c).
Proof.
  revert c. induction subs as [|sub subs IH]; intros c; [reflexivity|].
  cbn [foldl]. rewrite IH. cbn. apply length_insert.
Qed.

Lemma NoDup_map_filter {A B} (f : A -> B) (P : A -> Prop)
  `{forall x, Decision (P x)} (l : list A) :
  NoDup (map f l) -> NoDup (map f (filter P l)).
Proof.
  induction l as [|x l IH]; intros Hnd; [constructor|].
  cbn in Hnd. apply NoDup_cons in Hnd as [Hx Hl].
  rewrite filter_cons. destruct (decide (P x)); [|auto].
  cbn. apply NoDup_cons. split; [|auto].
  intros Hin. apply Hx.
  apply list_elem_of_fmap in Hin as (y & -> & Hy).
  apply list_elem_of_filter in Hy as [_ Hy].
  apply list_elem_of_fmap. eauto.
Qed.

Lemma stores_fit_new : stores_fit Simulated.new_client.
Proof.
  repeat split; cbn; try constructor.
  intros tid th H. rewrite lookup_nil in H. discriminate.
Qed.

Lemma step_keeps_stores_fit (c : Simulated.Client) (a : Simulated.action) :
  stores_fit c -> stores_fit (Simulated.step c a).
Proof.
  intros (Hlen & Hstop & Hsubs & Hnd).
  destruct a as [| |instrument|h|tid' seed d]; cbn [Simulated.step].
  - repeat split; assumption.
  - unfold stores_fit. rewrite disconnect_threads.
    repeat split; try assumption; try constructor.
    unfold Simulated.disconnect, Simulated._set_connected.
    cbn [Simulated.events]. rewrite set_events_length. exact Hlen.
  - unfold Simulated.subscribe_market_data.
    destruct (negb (Simulated.is_connected c)); cbn [snd];
      [repeat split; assumption|].
    unfold stores_fit.
    cbn [Simulated.events Simulated.threads Simulated._subscriptions].
    split; [rewrite !length_app; cbn; lia|]. split; [|split].
    + intros tid th Hl. apply lookup_app_Some in Hl as [Hl | [Hge Hl]];
        [apply (Hstop tid th Hl)|].
      apply list_lookup_singleton_Some in Hl as [Hz <-]. cbn. lia.
    + apply Forall_app. split.
      * eapply Forall_impl; [exact Hsubs|].
        intros sub (He & th & Hl & Hi). split; [exact He|].
        exists th. split; [apply lookup_app_l_Some, Hl | exact Hi].
      * constructor; [|constructor]. cbn. split; [exact Hlen|].
        eexists. split; [apply list_lookup_middle; reflexivity | reflexivity].
    + rewrite map_app. apply NoDup_app. split; [exact Hnd|].
      split; [|cbn; apply NoDup_singleton].
      intros ev Hin Hnew. cbn in Hnew. apply list_elem_of_singleton in Hnew.
      apply list_elem_of_fmap in Hin as (sub & -> & Hsub).
      rewrite Forall_forall in Hsubs.
      destruct (Hsubs sub Hsub) as (He & th & Hl & _).
      apply lookup_lt_Some in Hl. lia.
  - unfold stores_fit, Simulated.cancel.
    cbn [Simulated.events Simulated.threads Simulated._subscriptions
         Simulated.set_event].
    split; [rewrite length_insert; exact Hlen|]. split; [exact Hstop|].
    split; [|apply NoDup_map_filter, Hnd].
    rewrite Forall_forall in Hsubs. apply Forall_forall.
    intros sub Hin. apply list_elem_of_filter in Hin as [_ Hin].
    apply (Hsubs sub Hin).
  - unfold Simulated.thread_step.
    destruct (Simulated.threads c !! tid') as [th0|] eqn:E;
      [|repeat split; assumption].
    assert (Hkeep : Simulated.th_stop (Simulated.stream_step seed d c th0)
                    = Simulated.th_stop th0
                    /\ Simulated.th_instrument
                         (Simulated.stream_step seed d c th0)
                       = Simulated.th_instrument th0).
    { unfold Simulated.stream_step.
      destruct (Simulated.th_pc th0); [auto| |auto].
      destruct (_ || _)%bool; [auto|].
      destruct (Simulated.make_tick _ _ _); auto. }
    destruct Hkeep as [Hks Hki].
    unfold stores_fit.
    cbn [Simulated.events Simulated.threads Simulated._subscriptions].
    split; [rewrite length_insert; exact Hlen|]. split; [|split; [|exact Hnd]].
    + intros tid th Hl. destruct (decide (tid' = tid)) as [-> | Hne].
      * rewrite list_lookup_insert_eq in Hl
          by (apply lookup_lt_is_Some; eauto).
        injection Hl as <-. rewrite Hks. apply (Hstop tid th0 E).
      * rewrite list_lookup_insert_ne in Hl by exact Hne.
        apply (Hstop tid th Hl).
    + eapply Forall_impl; [exact Hsubs|].
      intros sub (He & th & Hl & Hi). split; [exact He|].
      destruct (decide (tid' = snd sub)) as [Heq | Hne].
      * subst tid'. rewrite E in Hl. injection Hl as <-.
        eexists. split.
        -- apply list_lookup_insert_eq. apply lookup_lt_is_Some. eauto.
        -- rewrite Hki. exact Hi.
      * exists th. split; [|exact Hi].
        rewrite list_lookup_insert_ne by exact Hne. exact Hl.
Qed.

(** X6. In every run of a new connector the stores fit together: thread
    and event numbers agree, every recorded subscription names a thread
    that exists and streams its instrument, and no two recorded
    subscriptions share an event; and a new subscription gets an event
    that no recorded one has. *)
Theorem subscriptions_never_share_an_event (trace : list Simulated.action) :
  stores_fit (Simulated.run Simulated.new_client trace)
  /\ forall (instrument : string) (h : Simulated.cancel_handle)
            (c' : Simulated.Client),
       Simulated.subscribe_market_data instrument
         (Simulated.run Simulated.new_client trace) = (Return h, c') ->
       Simulated.c_event h = Simulated.c_thread h
       /\ forall sub,
            sub ∈ Simulated._subscriptions
                    (Simulated.run Simulated.new_client trace) ->
            snd (fst sub) <> Simulated.c_event h.
Proof.
  assert (Hfit : stores_fit (Simulated.run Simulated.new_client trace)).
  { unfold Simulated.run.
    generalize stores_fit_new. generalize Simulated.new_client.
    induction trace as [|a trace IH]; intros c Hc; [exact Hc|].
    apply IH, step_keeps_stores_fit, Hc. }
  split; [exact Hfit|].
  intros instrument h c' Hsub.
  destruct Hfit as (Hlen & _ & Hsubs & _).
  unfold Simulated.subscribe_market_data in Hsub.
  destruct (negb _); [discriminate|]. injection Hsub as <- _.
  cbn. split; [exact Hlen|].
  intros sub Hin. rewrite Forall_forall in Hsubs.
  destruct (Hsubs sub Hin) as (He & th & Hl & _).
  apply lookup_lt_Some in Hl. lia.
Qed.

Lemma subscriptions_never_share_an_event_witness :
  exists h c',
    Simulated.subscribe_market_data "NQ 12-25"
      (Simulated.run Simulated.new_client
         (Simulated.Connect :: Sample.stream_trace)) = (Return h, c')
    /\ Simulated.c_event h = Simulated.c_thread h
    /\ forall sub,
         sub ∈ Simulated._subscriptions
                 (Simulated.run Simulated.new_client
                    (Simulated.Connect :: Sample.stream_trace)) ->
         snd (fst sub) <> Simulated.c_event h.
Proof.
  do 2 eexists. split; [reflexivity|].
  apply (proj2 (subscriptions_never_share_an_event
                  (Simulated.Connect :: Sample.stream_trace))
           "NQ 12-25" _ _ eq_refl).
Defined.

(** ** More on the simulated history *)

(** X7. With a timeframe whose count is zero and [start < end] the request
    never returns: the loop appends bars at [start] for ever. *)
Theorem simulated_history_zero_interval_hangs (seed : Q)
  (draws : nat -> Simulated.BarDraw) (c : Simulated.Client)
  (instrument timeframe : string) (start end_ : datetime) :
  Simulated.is_connected c = true ->
  _timeframe_to_timedelta timeframe = Return 0 ->
  start < end_ ->
  forall fuel : nat,
    Simulated.request_historical_data fuel seed draws c instrument timeframe
      start end_ = None.
Proof.
  intros Hconn Htf Hlt fuel.
  unfold Simulated.request_historical_data. rewrite Hconn, Htf. cbn [negb].
  rewrite history_loop_never_returns; [reflexivity | lia | exact Hlt].
Qed.

Lemma simulated_history_zero_interval_hangs_witness :
  forall_fuel_none
    (fun fuel =>
       Simulated.request_historical_data fuel (1 # 2) Sample.bar_draws
         Sample.connected_simulator "ES 12-25" "0s" 0 1).
Proof.
  unfold forall_fuel_none.
  apply (simulated_history_zero_interval_hangs (1 # 2) Sample.bar_draws
           Sample.connected_simulator "ES 12-25" "0s" 0 1).
  - reflexivity.
  - reflexivity.
  - reflexivity.
Defined.




Lemma history_loop_labels (draws : nat -> Simulated.BarDraw)
  (instrument timeframe : string) (delta : timedelta) (end_ : datetime)
  (fuel : nat) :
  forall (k : nat) (current : datetime) (price : Q)
         (bars result : list BarData),
    (forall i, Simulated.bar_draw_ok (draws i)) ->
    Simulated.history_loop fuel draws instrument timeframe delta end_
      k current price bars = Some result ->
    exists new,
      result = bars ++ new
      /\ Forall (fun b => bar_instrument b = instrument
                          /\ bar_timeframe b = timeframe
                          /\ 10 <= bar_volume b <= 1000) new.
Proof.
  induction fuel as [|fuel IH]; intros k current price bars result Hok Hrun;
    [discriminate|].
  cbn [Simulated.history_loop] in Hrun.
  destruct (current <? end_).
  - apply IH in Hrun as (new & -> & Hall); [|exact Hok].
    eexists (_ :: new). split; [rewrite <- app_assoc; reflexivity|].
    constructor; [|exact Hall]. cbn.
    destruct (Hok k) as (_ & _ & _ & Hv). auto.
  - injection Hrun as <-. exists []. rewrite app_nil_r. split; constructor.
Qed.

(** X9. With every draw in its range, each returned bar carries the
    instrument and the timeframe string of the request and a volume from
    10 to 1000, and the first bar opens between 1000 and 5000. *)
Theorem simulated_history_labels (fuel : nat) (seed : Q)
  (draws : nat -> Simulated.BarDraw) (c : Simulated.Client)
  (instrument timeframe : string) (start end_ : datetime)
  (bars : list BarData) :
  unit_interval seed ->
  (forall i, Simulated.bar_draw_ok (draws i)) ->
  Simulated.request_historical_data fuel seed draws c instrument timeframe
    start end_ = Some (Return bars) ->
  Forall (fun b => bar_instrument b = instrument
                   /\ bar_timeframe b = timeframe
                   /\ 10 <= bar_volume b <= 1000) bars
  /\ forall b, head bars = Some b ->
               (1000 <= bar_open b /\ bar_open b <= 5000)%Q.
Proof.
  intros Hseed Hok Hrun. unfold Simulated.request_historical_data in Hrun.
  destruct (negb (Simulated.is_connected c)); [discriminate|].
  destruct (_timeframe_to_timedelta timeframe) as [delta|]; [|discriminate].
  destruct (Simulated.history_loop _ _ _ _ _ _ _ _ _ _) as [result|] eqn:E;
    [|discriminate].
  cbn in Hrun. injection Hrun as ->.
  pose proof E as E'.
  apply history_loop_labels in E as (new & -> & Hall); [|exact Hok].
  apply history_loop_bars in E' as (new' & Hnew & _ & Hhead & _);
    [|exact Hok].
  cbn [app] in *. subst new'. split; [exact Hall|].
  intros b Hb. rewrite (Hhead b Hb).
  destruct (uniform_between 1000 5000 seed ltac:(lra) Hseed) as [H1 H2].
  apply round2_mono in H1. apply round2_mono in H2.
  split.
  - eapply Qle_trans; [|exact H1]. vm_compute. discriminate.
  - eapply Qle_trans; [exact H2|]. vm_compute. discriminate.
Qed.

Lemma simulated_history_labels_witness :
  exists bars,
    Sample.history = Some (Return bars)
    /\ Forall (fun b => bar_instrument b = "ES 12-25"
                        /\ bar_timeframe b = "5m"
                        /\ 10 <= bar_volume b <= 1000) bars
    /\ forall b, head bars = Some b ->
                 (1000 <= bar_open b /\ bar_open b <= 5000)%Q.
Proof.
  destruct Sample.history as [[bars|]|] eqn:E;
    try (vm_compute in E; discriminate E).
  exists bars. split; [reflexivity|].
  apply (simulated_history_labels 10 (1 # 2) Sample.bar_draws
           Sample.connected_simulator "ES 12-25" "5m" 0 (minutes 15) bars).
  - split; lra.
  - exact sample_draws_ok.
  - exact E.
Defined.

(** ** Timeframes that are refused *)



(** ** The services over the simulated connector *)

Lemma connect_connected (c : Simulated.Client) :
  Simulated.is_connected c = true -> Simulated.connect c = c.
Proof. destruct c as [[] ? ? ? ?]; [reflexivity | discriminate]. Qed.

Lemma timeframe_raises_no_connection_error (timeframe : string) :
  _timeframe_to_timedelta timeframe <> Raise ConnectionError.
Proof.
  unfold _timeframe_to_timedelta.
  destruct (Str.last_char timeframe) as [u|]; [|discriminate].
  cbn [or_raise bind].
  destruct (Str.truthy _); cbn [bind].
  - unfold PyInt.int. destruct (PyInt.signed _); cbn; [|discriminate].
    destruct (Ascii.eqb u "m"), (Ascii.eqb u "h"), (Ascii.eqb u "s");
      discriminate.
  - destruct (Ascii.eqb u "m"), (Ascii.eqb u "h"), (Ascii.eqb u "s");
      discriminate.
Qed.

(** X11. [get_historical_bars] over the simulated connector connects a
    client that is not connected and then does what the connector's request
    does on the connected client: the client is connected afterwards and
    the outcome is never [ConnectionError]. *)
Theorem historical_service_connects_first (c : Simulated.Client)
  (o : SimOutside) (instrument timeframe : string) (start end_ : datetime) :
  HistoricalDataService.get_historical_bars instrument timeframe start end_
    c o
  = (fun r => (r, Simulated.connect c, o))
      <$> Simulated.request_historical_data (so_fuel o) (so_seed o)
            (so_draws o) (Simulated.connect c) instrument timeframe
            start end_
  /\ forall r c' o',
       HistoricalDataService.get_historical_bars instrument timeframe
         start end_ c o = Some (r, c', o') ->
       Simulated.is_connected c' = true /\ r <> Raise ConnectionError.
Proof.
  assert (E : HistoricalDataService.get_historical_bars instrument timeframe
                start end_ c o
              = (fun r => (r, Simulated.connect c, o))
                  <$> Simulated.request_historical_data (so_fuel o)
                        (so_seed o) (so_draws o) (Simulated.connect c)
                        instrument timeframe start end_).
  { unfold HistoricalDataService.get_historical_bars.
    cbn [conn_is_connected conn_connect conn_request simulated_connector].
    destruct (Simulated.is_connected c) eqn:Hc; cbn [negb].
    - rewrite (connect_connected c Hc).
      destruct (Simulated.request_historical_data _ _ _ _ _ _ _ _);
        reflexivity.
    - destruct (Simulated.request_historical_data _ _ _ _ _ _ _ _);
        reflexivity. }
  split; [exact E|].
  intros r c' o' H. rewrite E in H.
  destruct (Simulated.request_historical_data _ _ _ _ _ _ _ _) as [r0|] eqn:Er;
    [|discriminate].
  cbn in H. injection H as <- <- <-. split; [reflexivity|].
  unfold Simulated.request_historical_data in Er. cbn [negb] in Er.
  change (Simulated.is_connected (Simulated.connect c)) with true in Er.
  cbn [negb] in Er.
  pose proof (timeframe_raises_no_connection_error timeframe) as Hne.
  destruct (_timeframe_to_timedelta timeframe) as [delta|e].
  - destruct (Simulated.history_loop _ _ _ _ _ _ _ _ _ _); [|discriminate].
    cbn in Er. injection Er as <-. discriminate.
  - injection Er as <-. intros [= ->]. apply Hne. reflexivity.
Qed.

Lemma historical_service_connects_first_witness :
  exists bars,
    HistoricalDataService.get_historical_bars "ES 12-25" "5m" 0 (minutes 15)
      Simulated.new_client
      {| so_fuel := 10; so_seed := 1 # 2; so_draws := Sample.bar_draws |}
    = Some (Return bars, Sample.connected_simulator,
            {| so_fuel := 10; so_seed := 1 # 2;
               so_draws := Sample.bar_draws |})
    /\ length bars = 3%nat.
Proof.
  rewrite (proj1 (historical_service_connects_first Simulated.new_client
                    {| so_fuel := 10; so_seed := 1 # 2;
                       so_draws := Sample.bar_draws |}
                    "ES 12-25" "5m" 0 (minutes 15))).
  eexists. split; [vm_compute; reflexivity | reflexivity].
Defined.




(** X13. [subscribe_realtime_ticks] over the simulated connector never
    raises: it connects a client that is not connected, starts one stream
    for the instrument, and records the cancel function it returns, in
    the service and in the connector. *)
Theorem market_service_subscribes (fuel : nat)
  (svc : MarketDataService.t Simulated.Client) (instrument : string) :
  exists (h : Simulated.cancel_handle) svc',
    MarketDataService.subscribe_realtime_ticks (S fuel) instrument svc
    = Some (Return h, svc')
    /\ Simulated.is_connected (MarketDataService._client svc') = true
    /\ MarketDataService._subscriptions svc'
       = MarketDataService._subscriptions svc ++ [h]
    /\ Simulated._subscriptions (MarketDataService._client svc')
       = Simulated._subscriptions (MarketDataService._client svc)
         ++ [(instrument, Simulated.c_event h, Simulated.c_thread h)]
    /\ Simulated.threads (MarketDataService._client svc')
         !! Simulated.c_thread h
       = Some {| Simulated.th_instrument := instrument;
                 Simulated.th_stop := Simulated.c_event h;
                 Simulated.th_pc := Simulated.Started;
                 Simulated.th_delivered := [] |}.
Proof.
  destruct svc as [c subs].
  unfold MarketDataService.subscribe_realtime_ticks,
    MarketDataService.ensure_connection.
  cbn [MarketDataService._client MarketDataService._subscriptions
       conn_supports_realtime conn_is_connected conn_connect conn_subscribe
       simulated_connector Simulated.supports_realtime negb
       MarketDataService.connect_loop].
  assert (Hsub : forall c0, Simulated.is_connected c0 = true ->
            Simulated.subscribe_market_data instrument c0
            = (Return {| Simulated.c_event := length (Simulated.events c0);
                         Simulated.c_thread := length (Simulated.threads c0) |},
               {| Simulated._connected := Simulated._connected c0;
                  Simulated._stop_event := Simulated._stop_event c0;
                  Simulated.events := Simulated.events c0 ++ [false];
                  Simulated.threads :=
                    Simulated.threads c0
                    ++ [ {| Simulated.th_instrument := instrument;
                            Simulated.th_stop := length (Simulated.events c0);
                            Simulated.th_pc := Simulated.Started;
                            Simulated.th_delivered := [] |} ];
                  Simulated._subscriptions :=
                    Simulated._subscriptions c0
                    ++ [(instrument, length (Simulated.events c0),
                         length (Simulated.threads c0))] |})).
  { intros c0 H0. unfold Simulated.subscribe_market_data. rewrite H0.
    reflexivity. }
  destruct (Simulated.is_connected c) eqn:Hc; cbn [negb].
  - rewrite (Hsub c Hc). do 2 eexists. split; [reflexivity|].
    cbn. repeat split; [exact Hc|].
    apply list_lookup_middle. reflexivity.
  - rewrite (Hsub (Simulated.connect c) eq_refl).
    do 2 eexists. split; [reflexivity|].
    cbn. repeat split. apply list_lookup_middle. reflexivity.
Qed.






(** ** More on the file handshake *)

Section Handshake.

Context {L : Library}.










End Handshake.



Section FetchOutcome.

Context {L : Library}.

(** X17. Called while connected, with a poll interval that is not
    negative: when the export file appears at a poll before the deadline,
    the call ends as parsing that file ends.  If parsing returns bars, the
    call returns them and the export file is deleted; if parsing raises,
    the call raises the same and the export file stays.  The command file
    is deleted in both cases. *)
Theorem kinetick_fetch_outcome (env : KinetickEOD.Environment)
  (c : KinetickEOD.Client) (instrument timeframe : string)
  (start end_ : datetime) (w w1 : KinetickEOD.World)
  (command_path export_path : string) (n : nat) (text : string) :
  KinetickEOD.write_command env c instrument start end_ w
    = (command_path, export_path, w1) ->
  KinetickEOD.is_connected c = true ->
  0 <= KinetickEOD._poll_interval c ->
  Z.of_nat n * KinetickEOD._poll_interval c < KinetickEOD._export_timeout c ->
  (forall j : nat, (j < n)%nat ->
     KinetickEOD.files (polled env (KinetickEOD._poll_interval c) j w1)
       !! export_path = None) ->
  KinetickEOD.files (polled env (KinetickEOD._poll_interval c) n w1)
    !! export_path = Some text ->
  exists fuel0 : nat, forall fuel : nat, (fuel0 <= fuel)%nat ->
    exists w',
      KinetickEOD.request_historical_data fuel env c instrument timeframe
        start end_ w
      = Some (KinetickEOD.parse_lines (csv_reader text) instrument, w')
      /\ KinetickEOD.files w' !! command_path = None
      /\ KinetickEOD.files w' !! export_path
         = match KinetickEOD.parse_lines (csv_reader text) instrument with
           | Return _ => None
           | Raise _ => Some text
           end.
Proof.
  intros Hcmd Hconn Hpoll Hn Hnone Hsome.
  assert (Hne : command_path <> export_path).
  { unfold KinetickEOD.write_command in Hcmd. injection Hcmd as <- <- _.
    apply command_path_not_export_path. }
  unfold KinetickEOD.request_historical_data. rewrite Hconn, Hcmd.
  cbn [negb]. exists (S n). intros fuel Hfuel.
  unfold KinetickEOD._wait_for_export.
  rewrite (wait_loop_finds env c (KinetickEOD.clock w1) export_path
             instrument n fuel w1 _ _ eq_refl eq_refl Hpoll);
    [|lia|exact Hnone|eauto|lia].
  unfold KinetickEOD._parse_export. rewrite Hsome.
  destruct (KinetickEOD.parse_lines (csv_reader text) instrument)
    as [bars|e].
  - eexists. split; [reflexivity|]. split; [apply cleanup_removes|].
    apply cleanup_keeps. apply lookup_delete_eq.
  - eexists. split; [reflexivity|]. split; [apply cleanup_removes|].
    destruct (KinetickEOD.exists_ command_path _); [|exact Hsome].
    cbn. rewrite lookup_delete_ne by exact Hne. exact Hsome.
Qed.

End FetchOutcome.

Lemma kinetick_fetch_outcome_witness :
  exists fuel0 : nat, forall fuel : nat, (fuel0 <= fuel)%nat ->
    exists w',
      KinetickEOD.request_historical_data (L := Sample.library) fuel
        garbling Sample.client "ES" "1D" 0 Sample.day Sample.empty_world
      = Some (Raise ValueError, w')
      /\ KinetickEOD.files w' !! "data/commands/cmd_0af3.txt" = None
      /\ is_Some (KinetickEOD.files w' !! "data/exports/0af3.csv").
Proof.
  destruct (kinetick_fetch_outcome (L := Sample.library) garbling
              Sample.client "ES" "1D" 0 Sample.day Sample.empty_world
              _ _ _ 1%nat _ eq_refl eq_refl
              ltac:(cbn; lia) ltac:(cbn; lia)
              ltac:(intros [|j] Hj; [reflexivity | lia]) eq_refl)
    as [fuel0 H].
  exists fuel0. intros fuel Hfuel.
  destruct (H fuel Hfuel) as (w' & Hrun & Hcmd & Hexp).
  exists w'. split; [exact Hrun|]. split; [exact Hcmd|].
  eexists. exact Hexp.
Defined.

(** ** More on the storage backend *)

Lemma ascii_compare_trans_le (a b c : ascii) :
  Ascii.compare a b <> Gt -> Ascii.compare b c <> Gt ->
  Ascii.compare a c <> Gt.
Proof.
  unfold Ascii.compare. rewrite !N.compare_gt_iff. lia.
Qed.



Section Sorting.

Context {Row : Type}.
Variable time_of : Row -> string.





End Sorting.

Section Selecting.

Context {Row : Type}.
Variable instrument_of : Row -> string.
Variable timeframe_of : Row -> option string.
Variable time_of : Row -> string.


End Selecting.



Section Fetching.

Context {L : Library}.







End Fetching.


Section SaveThenFetch.

Context {L : Library}.






End SaveThenFetch.

